(** * sd_monitor: the supervisor loop of the e-paper picture frame

    A shallow embedding of [src/sd_monitor.py]: settings loading, the
    refresh-time fallback chain, the quiet-hours evaluator, the worker
    process primitives and one iteration of the polling loop, followed by
    the properties of the specification that concern them.

    Around it: the start of the worker in [src/frame_manager.py], the
    cleanup of stale mounts and the [__main__] block of the monitor, and
    the uploading half of the bucket manager in
    [src/src/s3_manager/manger.py], with properties of whole runs. *)

From Stdlib Require Import ZArith QArith Ascii.
From stdpp Require Import base decidable option list strings gmap pretty.

Local Open Scope string_scope.
Local Open Scope Z_scope.

(* ===================================================================== *)
(** ** Times of day ([datetime.time])                                     *)
(* ===================================================================== *)

Module Time.

(** A naive [datetime.time]: Python compares two of them as the tuples
    [(hour, minute, second, microsecond)]. *)
Record dtime := mk_dtime {
  hour : Z;
  minute : Z;
  second : Z;
  microsecond : Z
}.

(** [datetime.datetime]; only [.time()] is used by the monitor. *)
Record datetime := mk_datetime {
  year : Z;
  month : Z;
  day : Z;
  time_of : dtime
}.

(** Tuple comparison, field by field. *)
Definition dtime_cmp (a b : dtime) : comparison :=
  match hour a ?= hour b with
  | Eq =>
    match minute a ?= minute b with
    | Eq =>
      match second a ?= second b with
      | Eq => microsecond a ?= microsecond b
      | c => c
      end
    | c => c
    end
  | c => c
  end.

Definition dtime_lt (a b : dtime) : bool :=
  match dtime_cmp a b with Lt => true | _ => false end.
Definition dtime_le (a b : dtime) : bool :=
  match dtime_cmp a b with Gt => false | _ => true end.
Definition dtime_ge (a b : dtime) : bool :=
  match dtime_cmp a b with Lt => false | _ => true end.

(** [in_quiet_hours(now, evening, morning)]. *)
Definition in_quiet_hours (now : datetime) (evening morning : dtime) : bool :=
  let current := time_of now in
  if dtime_lt evening morning then
    (* same-day window *)
    dtime_le evening current && dtime_lt current morning
  else
    (* crosses midnight *)
    dtime_ge current evening || dtime_lt current morning.

(** The order the specification speaks of, stated on its own: the
    lexicographic order of the four fields. *)
Definition before (a b : dtime) : Prop :=
  hour a < hour b
  \/ (hour a = hour b /\ minute a < minute b)
  \/ (hour a = hour b /\ minute a = minute b /\ second a < second b)
  \/ (hour a = hour b /\ minute a = minute b /\ second a = second b
      /\ microsecond a < microsecond b).

Definition not_after (a b : dtime) : Prop := before a b \/ a = b.

(** A time given as hour and minute only, as [parse_hhmm] builds it. *)
Definition hhmm (h m : Z) : dtime := mk_dtime h m 0 0.

Definition at_time (t : dtime) : datetime := mk_datetime 2024 1 1 t.

End Time.

(* ===================================================================== *)
(** ** Python values, strings and conversions                             *)
(* ===================================================================== *)

Module Py.

(** A Python [float]: not-a-number, an infinity, or a finite value given
    by the rational it denotes. *)
Inductive pyfloat :=
| FNan
| FInf (negative : bool)
| FFin (q : Q).

(** What [json.load] returns. *)
#[warnings="-register-all"]
Inductive json :=
| JNull
| JBool (b : bool)
| JInt (n : Z)
| JFloat (f : pyfloat)
| JStr (s : string)
| JList (l : list json)
| JDict (d : gmap string json).

(** Exceptions (all subclasses of [Exception]); the payload is the
    offending argument or the operating system's message. *)
Inductive exn :=
| ValueError (detail : string)
| TypeError (detail : string)
| OverflowError (detail : string)
| OSError (detail : string).

(** [str.isspace] on the ASCII range: tab, LF, VT, FF, CR, the four
    separators 0x1c-0x1f and the blank. *)
Definition isspace (a : ascii) : bool :=
  let n := nat_of_ascii a in
  ((9 <=? n) && (n <=? 13) || (28 <=? n) && (n <=? 32))%nat.

Fixpoint lstrip (s : string) : string :=
  match s with
  | String a s' => if isspace a then lstrip s' else s
  | EmptyString => EmptyString
  end.

Definition rstrip (s : string) : string := String.rev (lstrip (String.rev s)).

(** [s.strip()] *)
Definition strip (s : string) : string := rstrip (lstrip s).

Definition digit_val (a : ascii) : option Z :=
  Z.of_nat <$> Ascii.is_nat a.

Fixpoint all_digits (s : string) : bool :=
  match s with
  | String a s' => bool_decide (is_Some (digit_val a)) && all_digits s'
  | EmptyString => true
  end.

(** [s.isdigit()]: at least one character and all of them digits. Text
    is a sequence of 8-bit characters here, and the digits are the ASCII
    ones. *)
Definition isdigit (s : string) : bool :=
  match s with
  | EmptyString => false
  | _ => all_digits s
  end.

(** Decimal digits, where single underscores may separate digits. *)
Fixpoint parse_digits (acc : Z) (after_digit : bool) (s : string) : option Z :=
  match s with
  | EmptyString => if after_digit then Some acc else None
  | String a s' =>
    match digit_val a with
    | Some d => parse_digits (acc * 10 + d) true s'
    | None =>
      if bool_decide (a = "_"%char) && after_digit
      then parse_digits acc false s'
      else None
    end
  end.

(** [int(s)] for a string: surrounding blanks are dropped, one sign is
    allowed, then come the digits. The number of digits is not bounded. *)
Definition int_of_str (s : string) : exn + Z :=
  let t := strip s in
  let r :=
    match t with
    | String "+" t' => parse_digits 0 false t'
    | String "-" t' => Z.opp <$> parse_digits 0 false t'
    | _ => parse_digits 0 false t
    end in
  match r with
  | Some n => inr n
  | None => inl (ValueError s)
  end.

(** [int(v)] for a value that is not [None]. *)
Definition int_of (v : json) : exn + Z :=
  match v with
  | JBool b => inr (if b then 1 else 0)
  | JInt n => inr n
  | JFloat FNan => inl (ValueError "nan")
  | JFloat (FInf _) => inl (OverflowError "inf")
  | JFloat (FFin q) => inr (Z.quot (Qnum q) (Zpos (Qden q)))
  | JStr s => int_of_str s
  | JNull => inl (TypeError "NoneType")
  | JList _ => inl (TypeError "list")
  | JDict _ => inl (TypeError "dict")
  end.

(** [str(n)] for an integer. *)
Definition str (n : Z) : string := pretty n.
Arguments str : simpl never.

(** [os.path.join(a, b)] of [posixpath], for two components. *)
Definition path_join (a b : string) : string :=
  match b with
  | String "/" _ => b
  | _ =>
    match String.rev a with
    | EmptyString => b
    | String "/" _ => a +:+ b
    | _ => a +:+ "/" +:+ b
    end
  end.

End Py.

(* ===================================================================== *)
(** ** The supervisor's state and its effects                             *)
(* ===================================================================== *)

Module Sup.
Import Time Py.

(** What the monitor does to the outside world, in order: lines it
    prints (a line that shows an exception or the quiet-hours setting
    carries the value shown), signals it sends, waits it makes, workers
    it spawns. *)
Inductive event :=
| Print (line : string)
| PrintExn (prefix : string) (e : exn)
| PrintQuiet (setting : option json) (parsed : dtime * dtime)
| SendSignal (pid : nat) (sig : string) (failure : option exn)
| Wait (pid : nat) (failure : option exn)
| Popen (pid : nat) (args : list string).

(** The module globals [process] and [sd_was_removed], the locals
    [sd_inserted] and [was_in_quiet] of [monitor_sd_card], the workers
    spawned so far that are still running, the next process id and the
    events so far. A [Popen] object is identified with its process id. *)
Record State := mk_State {
  process : option nat;
  sd_was_removed : bool;
  sd_inserted : bool;
  was_in_quiet : bool;
  live : gset nat;
  next_pid : nat;
  out : list event
}.

Definition set_process (p : option nat) (s : State) : State :=
  mk_State p (sd_was_removed s) (sd_inserted s) (was_in_quiet s)
           (live s) (next_pid s) (out s).
Definition set_sd_was_removed (b : bool) (s : State) : State :=
  mk_State (process s) b (sd_inserted s) (was_in_quiet s)
           (live s) (next_pid s) (out s).
Definition set_sd_inserted (b : bool) (s : State) : State :=
  mk_State (process s) (sd_was_removed s) b (was_in_quiet s)
           (live s) (next_pid s) (out s).
Definition set_was_in_quiet (b : bool) (s : State) : State :=
  mk_State (process s) (sd_was_removed s) (sd_inserted s) b
           (live s) (next_pid s) (out s).
Definition set_live (l : gset nat) (s : State) : State :=
  mk_State (process s) (sd_was_removed s) (sd_inserted s) (was_in_quiet s)
           l (next_pid s) (out s).
Definition set_next_pid (n : nat) (s : State) : State :=
  mk_State (process s) (sd_was_removed s) (sd_inserted s) (was_in_quiet s)
           (live s) n (out s).
Definition emit (e : event) (s : State) : State :=
  mk_State (process s) (sd_was_removed s) (sd_inserted s) (was_in_quiet s)
           (live s) (next_pid s) (out s ++ [e]).

(** The state at import time, before [monitor_sd_card] runs. *)
Definition init : State := mk_State None false false false ∅ 0 [].

(** How a piece of code ends: it returns, it raises, or it never comes
    back (a [wait()] on a worker that does not exit). *)
Inductive Outcome (A : Type) :=
| Ok (a : A) (s : State)
| Raise (e : exn) (s : State)
| Hang.
Arguments Ok {A} a s.
Arguments Raise {A} e s.
Arguments Hang {A}.

Definition M (A : Type) : Type := State -> Outcome A.

Definition ret {A} (a : A) : M A := fun s => Ok a s.
Definition bind {A B} (m : M A) (k : A -> M B) : M B :=
  fun s =>
    match m s with
    | Ok a s' => k a s'
    | Raise e s' => Raise e s'
    | Hang => Hang
    end.
Definition raise {A} (e : exn) : M A := fun s => Raise e s.

(** [try: body except Exception as e: handler(e)] *)
Definition try_except {A} (body : M A) (handler : exn -> M A) : M A :=
  fun s =>
    match body s with
    | Ok a s' => Ok a s'
    | Raise e s' => handler e s'
    | Hang => Hang
    end.

Definition get {A} (f : State -> A) : M A := fun s => Ok (f s) s.
Definition modify (f : State -> State) : M unit := fun s => Ok tt (f s).
Definition lift {A} (r : exn + A) : M A :=
  match r with
  | inl e => raise e
  | inr a => ret a
  end.

Definition print (line : string) : M unit := modify (emit (Print line)).
Definition print_exn (prefix : string) (e : exn) : M unit :=
  modify (emit (PrintExn prefix e)).

#[global] Instance M_ret : MRet M := @ret.
#[global] Instance M_bind : MBind M := fun A B k m => bind m k.

(* --------------------------------------------------------------------- *)
(** *** Settings                                                          *)
(* --------------------------------------------------------------------- *)

Definition DEFAULT_SETTINGS : gmap string json :=
  <["picture_mode" := JStr "local"]>
  (<["change_interval_minutes" := JInt 15]>
  (<["stop_rotation_between" := JNull]>
  (<["s3_folder" := JStr "s3_folder"]> ∅))).

(** [DEFAULT_SETTINGS.keys()], in insertion order. *)
Definition DEFAULT_KEYS : list string :=
  ["picture_mode"; "change_interval_minutes"; "stop_rotation_between";
   "s3_folder"].

(** Lines 45-48 of [load_settings]: the shallow merge of a parsed
    document into the settings built so far. *)
Definition merge_into (settings : gmap string json) (data : json)
  : gmap string json :=
  match data with
  | JDict d =>
    foldl (fun st key =>
             match d !! key with
             | Some v => <[key := v]> st
             | None => st
             end) settings DEFAULT_KEYS
  | _ => settings
  end.

(** A candidate settings file: missing, present but failing in [open] or
    [json.load], or present with a parsed document. *)
Inductive settings_file :=
| SMissing
| SBroken (e : exn)
| SParsed (data : json).

(** The [for path in SETTINGS_LOCATIONS] loop. *)
Fixpoint load_from (fs : string -> settings_file) (paths : list string)
    (settings : gmap string json) : M (gmap string json) :=
  match paths with
  | [] => ret settings
  | path :: rest =>
    match fs path with
    | SMissing => load_from fs rest settings
    | SBroken e =>
      print_exn ("[sd_monitor] Error reading settings from " +:+ path +:+ ": ") e;;
      load_from fs rest settings
    | SParsed data =>
      let settings := merge_into settings data in
      print ("[sd_monitor] Loaded settings from " +:+ path);;
      ret settings
    end
  end.

Definition load_settings (fs : string -> settings_file)
    (SETTINGS_LOCATIONS : list string) : M (gmap string json) :=
  load_from fs SETTINGS_LOCATIONS DEFAULT_SETTINGS.

(* --------------------------------------------------------------------- *)
(** *** Refresh time                                                      *)
(* --------------------------------------------------------------------- *)

(** A file on the SD card as [os.path.exists] and [open]/[read] see it. *)
Inductive file_state :=
| FMissing
| FUnreadable (e : exn)
| FContent (text : string).

(** [get_refresh_time(sd_path, filename, settings)] *)
Definition get_refresh_time (fs : string -> file_state) (sd_path : string)
    (filename : string) (settings : option (gmap string json)) : M Z :=
  let settings := default DEFAULT_SETTINGS settings in
  (* 1) settings.json (change_interval_minutes) *)
  let change_interval := settings !! "change_interval_minutes" in
  early ← try_except
    (match change_interval with
     | None | Some JNull => ret None
     | Some v =>
       minutes ← lift (int_of v);
       if 0 <? minutes then ret (Some (minutes * 60)) else ret None
     end)
    (fun e =>
       print_exn "[sd_monitor] Invalid change_interval_minutes in settings: " e;;
       ret None);
  match early with
  | Some seconds => ret seconds
  | None =>
    (* 2) refresh_time.txt on the SD card *)
    let file_path := path_join sd_path filename in
    match fs file_path with
    | FMissing =>
      print ("[sd_monitor] " +:+ filename +:+ " not found, defaulting to 600");;
      ret 600
    | FUnreadable e =>
      print_exn ("[sd_monitor] Error reading " +:+ filename +:+ ": ") e;;
      ret 600
    | FContent text =>
      try_except
        (let number := strip text in
         if isdigit number
         then lift (int_of_str number)
         else
           print ("[sd_monitor] Invalid number in " +:+ filename +:+ ", defaulting to 600");;
           ret 600)
        (fun e =>
           print_exn ("[sd_monitor] Error reading " +:+ filename +:+ ": ") e;;
           ret 600)
    end
  end.

(* --------------------------------------------------------------------- *)
(** *** Quiet hours configuration                                         *)
(* --------------------------------------------------------------------- *)

(** Python truth value of a parsed JSON value. *)
Definition truthy (v : json) : bool :=
  match v with
  | JNull => false
  | JBool b => b
  | JInt n => negb (n =? 0)
  | JFloat (FFin q) => negb (Qnum q =? 0)
  | JFloat _ => true
  | JStr s => negb (bool_decide (s = EmptyString))
  | JList l => match l with [] => false | _ => true end
  | JDict d => negb (bool_decide (d = ∅))
  end.

(** [s.split(":")] *)
Fixpoint split_colon (cur : string) (s : string) : list string :=
  match s with
  | EmptyString => [String.rev cur]
  | String a s' =>
    if bool_decide (a = ":"%char)
    then String.rev cur :: split_colon EmptyString s'
    else split_colon (String a cur) s'
  end.

(** [parse_hhmm(value)]: every exception inside gives [None]. *)
Definition parse_hhmm (value : json) : option dtime :=
  match value with
  | JStr s =>
    match split_colon EmptyString s with
    | p0 :: p1 :: _ =>
      match int_of_str p0, int_of_str p1 with
      | inr h, inr m =>
        if (0 <=? h) && (h <=? 23) && (0 <=? m) && (m <=? 59)
        then Some (hhmm h m)
        else None
      | _, _ => None
      end
    | _ => None
    end
  | _ => None
  end.

(** [parse_stop_rotation_between(cfg)], with [cfg] the result of
    [settings.get("stop_rotation_between")]. *)
Definition parse_stop_rotation_between (cfg : option json)
  : option (dtime * dtime) :=
  match cfg with
  | Some (JDict d) =>
    if bool_decide (d = ∅) then None else
    match d !! "evening", d !! "morning" with
    | Some evening_str, Some morning_str =>
      if truthy evening_str && truthy morning_str then
        match parse_hhmm evening_str, parse_hhmm morning_str with
        | Some evening, Some morning => Some (evening, morning)
        | _, _ => None
        end
      else None
    | _, _ => None
    end
  | _ => None
  end.

(* --------------------------------------------------------------------- *)
(** *** Process handling                                                  *)
(* --------------------------------------------------------------------- *)

(** The two paths fixed when the module is imported. *)
Class Install := {
  SD_MOUNT_BASE : string;
  IMAGE_PROCESSING_SCRIPT : string
}.

(** How a [wait()] on a running worker ends. *)
Inductive wait_result :=
| WaitReturns
| WaitRaises (e : exn)
| WaitForever.

(** What the outside world answers during one iteration of the loop. *)
Record Env := mk_Env {
  env_now : datetime;                      (* datetime.now() *)
  env_listdir : exn + list (string * bool);
      (* os.listdir(SD_MOUNT_BASE), each entry with its os.path.isdir *)
  env_exit_pre : gset nat;   (* workers that exited since the last iteration *)
  env_exit_mid : gset nat;   (* workers that exit before start/stop probes again *)
  env_send_signal : option exn;            (* failure of os.kill, if any *)
  env_wait : wait_result;
  env_popen : option exn;                  (* failure of Popen, if any *)
  env_fs : string -> file_state            (* files on the SD card *)
}.

(** Workers exiting on their own. *)
Definition exits (X : gset nat) : M unit :=
  modify (fun s => set_live (live s ∖ X) s).

(** [process is not None and process.poll() is None]: the handle, when
    it refers to a running worker. *)
Definition running_process : M (option nat) :=
  get (fun s =>
         match process s with
         | Some p => if bool_decide (p ∈ live s) then Some p else None
         | None => None
         end).

(** [process.send_signal(signal.SIGTERM)]: nothing is sent to a process
    that has completed. *)
Definition send_signal (r : option exn) (p : nat) : M unit :=
  fun s =>
    if bool_decide (p ∈ live s) then
      match r with
      | None => Ok tt (emit (SendSignal p "SIGTERM" None) s)
      | Some e => Raise e (emit (SendSignal p "SIGTERM" (Some e)) s)
      end
    else Ok tt s.

(** [process.wait()] *)
Definition wait (r : wait_result) (p : nat) : M unit :=
  fun s =>
    if bool_decide (p ∈ live s) then
      match r with
      | WaitReturns => Ok tt (emit (Wait p None) (set_live (live s ∖ {[p]}) s))
      | WaitRaises e => Raise e (emit (Wait p (Some e)) s)
      | WaitForever => Hang
      end
    else Ok tt (emit (Wait p None) s).

(** [subprocess.Popen(args, ...)] *)
Definition popen (r : option exn) (args : list string) : M nat :=
  fun s =>
    match r with
    | Some e => Raise e s
    | None =>
      let pid := next_pid s in
      Ok pid (emit (Popen pid args)
                (set_next_pid (S pid) (set_live (live s ∪ {[pid]}) s)))
    end.

Section Monitor.
Context `{Install}.

(** [start_frame_manager(sd_path, settings)] *)
Definition start_frame_manager (env : Env) (sd_path : string)
    (settings : gmap string json) : M unit :=
  r ← running_process;
  match r with
  | Some p =>
    print "[sd_monitor] Stopping existing frame_manager process...";;
    send_signal (env_send_signal env) p;;
    wait (env_wait env) p;;
    print "[sd_monitor] Existing frame_manager process stopped."
  | None => ret tt
  end;;
  (* Compute refresh time *)
  refresh_time_sec ←
    get_refresh_time (env_fs env) sd_path "refresh_time.txt" (Some settings);
  print ("[sd_monitor] Starting frame_manager with path " +:+ sd_path +:+
         " and refresh_time_sec=" +:+ str refresh_time_sec +:+ "...");;
  pid ← popen (env_popen env)
          ["python3"; IMAGE_PROCESSING_SCRIPT; sd_path; str refresh_time_sec];
  modify (set_process (Some pid));;
  print "[sd_monitor] frame_manager started.".

(** [stop_frame_manager(reason)] *)
Definition stop_frame_manager (env : Env) (reason : string) : M unit :=
  r ← running_process;
  match r with
  | Some p =>
    let msg :=
      if bool_decide (reason = EmptyString)
      then "[sd_monitor] Stopping frame_manager process."
      else "[sd_monitor] Stopping frame_manager process. Reason: " +:+ reason in
    print msg;;
    try_except
      (send_signal (env_send_signal env) p;;
       wait (env_wait env) p)
      (fun e => print_exn "[sd_monitor] Error stopping frame_manager: " e)
  | None => ret tt
  end;;
  modify (set_process None).

(** The [need_start] decision of the branch "not in quiet hours, SD
    present". *)
Definition need_start : M bool :=
  inserted ← get sd_inserted;
  if negb inserted then
    print "[sd_monitor] SD card inserted. Starting frame_manager...";;
    ret true
  else
    removed ← get sd_was_removed;
    if (removed : bool) then
      print "[sd_monitor] SD card reinserted. Restarting frame_manager...";;
      ret true
    else
      r ← running_process;
      if negb (bool_decide (is_Some r)) then
        print "[sd_monitor] frame_manager not running, starting...";;
        ret true
      else
        quiet ← get was_in_quiet;
        if (quiet : bool) then
          print "[sd_monitor] Quiet hours ended, restarting frame_manager...";;
          ret true
        else ret false.

(** One iteration of the [while True] loop of [monitor_sd_card], up to
    the [time.sleep(2)]. *)
Definition tick (settings : gmap string json)
    (quiet_cfg : option (dtime * dtime)) (env : Env) : M unit :=
  exits (env_exit_pre env);;
  try_except
    (let now := env_now env in
     let in_quiet :=
       match quiet_cfg with
       | Some (evening, morning) => in_quiet_hours now evening morning
       | None => false
       end in
     items ← lift (env_listdir env);
     let valid_dirs := fst <$> List.filter snd items in
     match valid_dirs with
     | first :: _ =>
       let sd_path := path_join SD_MOUNT_BASE first in
       if in_quiet then
         (* SD is present but within quiet hours -> stop rotation *)
         r ← running_process;
         (if bool_decide (is_Some r) then
            exits (env_exit_mid env);;
            stop_frame_manager env "entering quiet hours"
          else ret tt);;
         modify (set_sd_inserted true);;
         modify (set_sd_was_removed false);;
         modify (set_was_in_quiet true)
       else
         (* Not in quiet hours, SD present *)
         start ← need_start;
         if (start : bool) then
           exits (env_exit_mid env);;
           start_frame_manager env sd_path settings;;
           modify (set_sd_inserted true);;
           modify (set_sd_was_removed false);;
           modify (set_was_in_quiet false)
         else ret tt
     | [] =>
       (* No SD card mounted under SD_MOUNT_BASE *)
       inserted ← get sd_inserted;
       if (inserted : bool) then
         print "[sd_monitor] SD card removed.";;
         modify (set_sd_inserted false);;
         modify (set_sd_was_removed true);;
         exits (env_exit_mid env);;
         stop_frame_manager env "SD card removed"
       else ret tt
     end)
    (fun e => print_exn "[sd_monitor] Error monitoring SD card: " e).

(** The loop over the answers of the outside world, one per iteration. *)
Fixpoint ticks (settings : gmap string json)
    (quiet_cfg : option (dtime * dtime)) (envs : list Env) : M unit :=
  match envs with
  | [] => ret tt
  | env :: rest =>
    tick settings quiet_cfg env;;
    ticks settings quiet_cfg rest
  end.

(** [monitor_sd_card()], for as many iterations as answers are given. *)
Definition monitor_sd_card (sfs : string -> settings_file)
    (SETTINGS_LOCATIONS : list string) (envs : list Env) : M unit :=
  modify (set_sd_inserted false);;
  settings ← load_settings sfs SETTINGS_LOCATIONS;
  let quiet_cfg :=
    parse_stop_rotation_between (settings !! "stop_rotation_between") in
  modify (set_was_in_quiet false);;
  match quiet_cfg with
  | Some parsed =>
    (* "[sd_monitor] Quiet hours configured: {setting} (parsed={parsed})" *)
    modify (emit (PrintQuiet (settings !! "stop_rotation_between") parsed))
  | None => print "[sd_monitor] No quiet hours configured."
  end;;
  ticks settings quiet_cfg envs.

End Monitor.

End Sup.

(* ===================================================================== *)
(** ** Vocabulary of the specification                                    *)
(* ===================================================================== *)

Module Claimed.
Import Time Py Sup.

(** The same state with more events. *)
Definition emits (evs : list event) (s : State) : State :=
  mk_State (process s) (sd_was_removed s) (sd_inserted s) (was_in_quiet s)
           (live s) (next_pid s) (out s ++ evs).

(** The number a string of decimal digits denotes. *)
Fixpoint decimal_value_from (acc : Z) (s : string) : Z :=
  match s with
  | String a s' => decimal_value_from (acc * 10 + default 0 (digit_val a)) s'
  | EmptyString => acc
  end.
Definition decimal_value (s : string) : Z := decimal_value_from 0 s.

(** The fallback as the specification words it: the value of the file on
    the SD card when its stripped content is a digit string, 600 when the
    file is absent, unreadable or not numeric. *)
Definition file_refresh_time (fs : string -> file_state)
    (sd_path filename : string) : Z :=
  match fs (path_join sd_path filename) with
  | FContent text =>
    if isdigit (strip text) then decimal_value (strip text) else 600
  | _ => 600
  end.


(** A card without [refresh_time.txt]. *)
Definition empty_card : string -> file_state := fun _ => FMissing.

(** Settings whose interval is the string ["15"], as a [settings.json]
    with ["change_interval_minutes": "15"] gives them. *)
Definition settings_interval_str : gmap string json :=
  <["change_interval_minutes" := JStr "15"]> DEFAULT_SETTINGS.

End Claimed.

(* ===================================================================== *)
(** ** Reading the state and the events                                   *)
(* ===================================================================== *)

Module Observed.
Import Time Py Sup Claimed.

(** [process is not None and process.poll() is None], read off a state. *)
Definition running (s : State) : option nat :=
  match process s with
  | Some p => if bool_decide (p ∈ live s) then Some p else None
  | None => None
  end.

Definition is_popen (e : event) : bool :=
  match e with
  | Popen _ _ => true
  | _ => false
  end.

(** The workers a sequence of events spawns. *)
Definition spawns (evs : list event) : list event := List.filter is_popen evs.

(** The events record a failed attempt to stop worker [p]. *)
Definition stop_failed (p : nat) (evs : list event) : Prop :=
  exists e, SendSignal p "SIGTERM" (Some e) ∈ evs \/ Wait p (Some e) ∈ evs.


(** The line [stop_frame_manager] prints first. *)
Definition stop_message (reason : string) : string :=
  if bool_decide (reason = EmptyString)
  then "[sd_monitor] Stopping frame_manager process."
  else "[sd_monitor] Stopping frame_manager process. Reason: " +:+ reason.

(** The quiet-hours evaluation at the top of an iteration. *)
Definition in_quiet (quiet_cfg : option (dtime * dtime)) (env : Env) : bool :=
  match quiet_cfg with
  | Some (evening, morning) => in_quiet_hours (env_now env) evening morning
  | None => false
  end.

(** The directories among the entries of the mount root. *)
Definition valid_dirs (items : list (string * bool)) : list string :=
  fst <$> List.filter snd items.

(** The state once the workers in [X] have exited. *)
Definition exited (X : gset nat) (s : State) : State :=
  set_live (live s ∖ X) s.

(** The line [start_frame_manager] prints before it spawns. *)
Definition starting_message (sd_path : string) (refresh : Z) : string :=
  "[sd_monitor] Starting frame_manager with path " +:+ sd_path +:+
  " and refresh_time_sec=" +:+ str refresh +:+ "...".

(** The command line of the worker. *)
Definition worker_args `{Install} (sd_path : string) (refresh : Z)
  : list string :=
  ["python3"; IMAGE_PROCESSING_SCRIPT; sd_path; str refresh].

(** The events of stopping worker [p] inside [start_frame_manager]. *)
Definition restart_stop_events (p : nat) : list event :=
  [Print "[sd_monitor] Stopping existing frame_manager process...";
   SendSignal p "SIGTERM" None; Wait p None;
   Print "[sd_monitor] Existing frame_manager process stopped."].

(** The events of spawning worker [pid]. *)
Definition spawn_events `{Install} (pid : nat) (sd_path : string)
    (refresh : Z) : list event :=
  [Print (starting_message sd_path refresh);
   Popen pid (worker_args sd_path refresh);
   Print "[sd_monitor] frame_manager started."].

End Observed.

(* ===================================================================== *)
(** ** Concrete installations, states and answers                         *)
(* ===================================================================== *)

Module Examples.
Import Time Py Sup Claimed.

Definition pi : Install :=
  {| SD_MOUNT_BASE := "/media/pi";
     IMAGE_PROCESSING_SCRIPT := "/home/pi/frame_manager.py" |}.

Definition noon : datetime := at_time (hhmm 12 0).
Definition late : datetime := at_time (hhmm 23 0).

(** Quiet from 22:00 to 07:00. *)
Definition overnight : option (dtime * dtime) := Some (hhmm 22 0, hhmm 7 0).

(** A mount root with one card, and an empty one. *)
Definition card : exn + list (string * bool) := inr [("SDCARD", true)].
Definition no_card : exn + list (string * bool) := inr [].
Definition no_root : exn + list (string * bool) :=
  inl (OSError "No such file or directory: '/media/pi'").

(** Answers of a world in which nothing fails and no worker exits on its
    own. *)
Definition calm (now : datetime) (listing : exn + list (string * bool))
  : Env :=
  mk_Env now listing ∅ ∅ None WaitReturns None empty_card.

(** The same, except that signals cannot be delivered. *)
Definition unkillable (now : datetime)
    (listing : exn + list (string * bool)) : Env :=
  mk_Env now listing ∅ ∅ (Some (OSError "Operation not permitted"))
         WaitReturns None empty_card.

(** The state after worker 0 was started for an inserted card. *)
Definition running_state : State :=
  mk_State (Some 0%nat) false true false {[0%nat]} 1 [].

(** The state a piece of code ends in. *)
Definition final (o : Outcome unit) : State :=
  match o with
  | Ok _ s => s
  | Raise _ s => s
  | Hang => init
  end.

(** The same answers, except that the worker cannot be spawned. *)
Definition no_python (now : datetime)
    (listing : exn + list (string * bool)) : Env :=
  mk_Env now listing ∅ ∅ None WaitReturns
         (Some (OSError "No such file or directory: 'python3'")) empty_card.

(** A day in the life of the frame: the card is inserted at noon, quiet
    hours come, the card is pulled out. *)
Definition a_day : list Env :=
  [calm noon card; calm late card; calm late no_card; calm noon no_card].

End Examples.

(* ===================================================================== *)
(** ** The worker's start ([frame_manager.py])                            *)
(* ===================================================================== *)

Module FrameManager.
Import Py Sup.

(** The [for path in SETTINGS_LOCATIONS] loop of [load_settings] in
    [frame_manager.py], with the lines it prints. Its [DEFAULT_SETTINGS]
    has the keys and values of the monitor's, in the same order, and the
    merge is the same four lines. *)
Fixpoint load_from (fs : string -> settings_file) (paths : list string)
    (settings : gmap string json) : gmap string json * list event :=
  match paths with
  | [] => (settings, [])
  | path :: rest =>
    match fs path with
    | SMissing => load_from fs rest settings
    | SBroken e =>
      let '(result, lines) := load_from fs rest settings in
      (result,
       PrintExn ("[frame_manager] Error reading settings from " +:+ path +:+ ": ") e
         :: lines)
    | SParsed data =>
      (merge_into settings data,
       [Print ("[frame_manager] Loaded settings from " +:+ path)])
    end
  end.

Definition load_settings (fs : string -> settings_file)
    (SETTINGS_LOCATIONS : list string) : gmap string json * list event :=
  load_from fs SETTINGS_LOCATIONS DEFAULT_SETTINGS.

(** How the [__main__] block gets past its command line: it prints the
    usage and exits with status 1, it dies of the exception [int] raises,
    or it goes on with the path and the refresh time. *)
Inductive startup :=
| Usage
| Died (e : exn)
| Started (sd_path : string) (refresh_time : Z).

(** Lines 128-133, on [sys.argv]. *)
Definition parse_argv (argv : list string) : startup :=
  match argv with
  | _ :: sd_path :: refresh :: _ =>
    match int_of_str refresh with
    | inr refresh_time => Started sd_path refresh_time
    | inl e => Died e
    end
  | _ => Usage
  end.

(** [sys.argv] of a script run as [python3 script args...]: the command
    line without the interpreter. *)
Definition sys_argv (command : list string) : list string := tail command.

End FrameManager.

(* ===================================================================== *)
(** ** Stale mounts ([cleanup_stale_mounts])                              *)
(* ===================================================================== *)

Module Startup.
Import Py Sup.

(** An entry of the mount root, with what [os.path.isdir] and
    [os.access(R_OK | X_OK)] say about it. *)
Record mount := mk_mount {
  m_name : string;
  m_isdir : bool;
  m_access : bool
}.

(** How [subprocess.run(..., check=True)] can fail. *)
Inductive run_error :=
| CalledProcessError (returncode : Z)
| Unexpected (e : exn).

(** What [cleanup_stale_mounts] does, in order. *)
Inductive action :=
| Say (line : string)
| SayError (prefix : string) (err : run_error)
| Run (command : list string).

Section Cleanup.
Context `{Install}.

(** The body of the [for folder in os.listdir(SD_MOUNT_BASE)] loop. *)
Fixpoint cleanup_loop (run : list string -> option run_error)
    (folders : list mount) : list action :=
  match folders with
  | [] => []
  | folder :: rest =>
    let full_path := path_join SD_MOUNT_BASE (m_name folder) in
    (* Skip non-directories *)
    if negb (m_isdir folder) then cleanup_loop run rest
    else if negb (m_access folder) then
      Say ("[sd_monitor] Stale or inaccessible mount detected: " +:+ full_path
           +:+ ", attempting to remove...")
      :: Run ["sudo"; "rm"; "-r"; full_path]
      :: match run ["sudo"; "rm"; "-r"; full_path] with
         | None =>
           Say ("[sd_monitor] Removed stale mount folder: " +:+ full_path)
         | Some (CalledProcessError c) =>
           SayError ("[sd_monitor] Failed to remove " +:+ full_path
                     +:+ " (subprocess error): ") (CalledProcessError c)
         | Some (Unexpected e) =>
           SayError ("[sd_monitor] Unexpected error removing " +:+ full_path
                     +:+ ": ") (Unexpected e)
         end
      :: cleanup_loop run rest
    else cleanup_loop run rest
  end.

(** [cleanup_stale_mounts()]: the listing is not guarded. *)
Definition cleanup_stale_mounts (listing : exn + list mount)
    (run : list string -> option run_error) : exn + list action :=
  match listing with
  | inl e => inl e
  | inr folders => inr (cleanup_loop run folders)
  end.

(** The [__main__] block: the stale mounts first, then the loop. What
    [cleanup_stale_mounts] did comes with the outcome of the loop. *)
Definition main (listing : exn + list mount)
    (run : list string -> option run_error)
    (sfs : string -> settings_file) (SETTINGS_LOCATIONS : list string)
    (envs : list Env) : list action * Outcome unit :=
  match cleanup_stale_mounts listing run with
  | inl e => ([], Raise e init)
  | inr acts => (acts, monitor_sd_card sfs SETTINGS_LOCATIONS envs init)
  end.

End Cleanup.

End Startup.

(* ===================================================================== *)
(** ** The bucket manager ([s3_manager/manger.py])                        *)
(* ===================================================================== *)

Module S3.

(** [s.lstrip("/")] *)
Fixpoint lstrip_slash (s : string) : string :=
  match s with
  | String a s' => if bool_decide (a = "/"%char) then lstrip_slash s' else s
  | EmptyString => EmptyString
  end.

(** [s.strip("/")] *)
Definition strip_slash (s : string) : string :=
  String.rev (lstrip_slash (String.rev (lstrip_slash s))).

(** [s.startswith(p)] *)
Fixpoint startswith (s p : string) {struct p} : bool :=
  match p with
  | EmptyString => true
  | String b p' =>
    match s with
    | String a s' => bool_decide (a = b) && startswith s' p'
    | EmptyString => false
    end
  end.

(** [s.endswith(p)] *)
Definition endswith (s p : string) : bool :=
  startswith (String.rev s) (String.rev p).

(** [s[n:]] *)
Fixpoint drop_chars (n : nat) (s : string) : string :=
  match n, s with
  | S n', String _ s' => drop_chars n' s'
  | _, _ => s
  end.

(** The two attributes of an [S3Manager] that are data; its client is
    whatever answers the calls below. *)
Record S3Manager := mk_S3Manager {
  bucket_name : string;
  prefix : string
}.

(** [S3Manager(bucket_name, prefix)]: the prefix becomes [''] or
    ['some/prefix/']. *)
Definition new (bucket_name prefix : string) : S3Manager :=
  let prefix := strip_slash prefix in
  mk_S3Manager bucket_name
    (if bool_decide (prefix = EmptyString) then prefix else prefix +:+ "/").

(** The exceptions the methods raise or let through: their own two, a
    [ClientError] with its [response["Error"]["Code"]], and anything else
    the client raises. *)
Inductive error :=
| FileNotFoundError (path : string)
| NotADirectoryError (path : string)
| ClientError (code : string)
| OtherError (detail : string).

(** The calls on the client, with their keyword arguments. *)
Inductive call :=
| head_object (Bucket Key : string)
| upload_file (Filename Bucket Key : string)
    (ExtraArgs : option (list (string * string)))
| paginate (Bucket Prefix : string)
| delete_objects (Bucket : string) (Objects : list string) (Quiet : bool).

(** The client: what a call raises, if anything, and the pages a
    paginator yields for a bucket and a prefix, each one the keys of its
    ["Contents"] or the exception that fetching it raises. A listing
    yields each path once and a bucket lists each key once, so that a run
    makes no call twice: the answer is given by the call. *)
Record client := mk_client {
  answer : call -> option error;
  pages : string -> string -> list (error + list string)
}.




(** An entry [local_dir.rglob("*")] yields. *)
Record entry := mk_entry {
  e_str : string;        (* str(path) *)
  e_rel : string;        (* path.relative_to(local_dir).as_posix() *)
  e_is_file : bool       (* path.is_file() *)
}.

(** [key[len(self.prefix):] if self.prefix else key] *)
Definition rel_key (self : S3Manager) (key : string) : string :=
  if bool_decide (prefix self = EmptyString) then key
  else drop_chars (String.length (prefix self)) key.

(** Lines 184-200, for one file: the existence check when existing
    objects are to be kept, then the upload. *)
Definition upload_one (c : client) (self : S3Manager)
    (overwrite_existing : bool) (path : entry) : list call * option error :=
  let key := prefix self +:+ e_rel path in
  let upload := upload_file (e_str path) (bucket_name self) key None in
  if negb overwrite_existing then
    let head := head_object (bucket_name self) key in
    match answer c head with
    | None => ([head], None)                        (* object exists -> skip *)
    | Some (ClientError code) =>
      if bool_decide (code <> "404")
      then ([head], Some (ClientError code))
      else ([head; upload], answer c upload)
    | Some e => ([head], Some e)
    end
  else ([upload], answer c upload).

(** The loop of lines 178-200, with the set [local_files] it builds. *)
Fixpoint upload_all (c : client) (self : S3Manager) (overwrite_existing : bool)
    (paths : list entry) (local_files : gset string)
  : list call * (error + gset string) :=
  match paths with
  | [] => ([], inr local_files)
  | path :: rest =>
    if negb (e_is_file path)
    then upload_all c self overwrite_existing rest local_files
    else
      let local_files := local_files ∪ {[e_rel path]} in
      match upload_one c self overwrite_existing path with
      | (calls, Some e) => (calls, inl e)
      | (calls, None) =>
        let '(calls', r) :=
          upload_all c self overwrite_existing rest local_files in
        ((calls ++ calls')%list, r)
      end
  end.

(** The loop of lines 207-219: the keys to delete, page by page. *)
Fixpoint keys_to_delete (self : S3Manager) (local_files : gset string)
    (listing : list (error + list string)) : error + list string :=
  match listing with
  | [] => inr []
  | inl e :: _ => inl e
  | inr contents :: rest =>
    match keys_to_delete self local_files rest with
    | inl e => inl e
    | inr keys =>
      inr (List.filter
             (fun key =>
                negb (endswith key "/")
                && negb (bool_decide (rel_key self key ∈ local_files)))
             contents ++ keys)%list
    end
  end.

(** [keys[i : i + 1000] for i in range(0, len(keys), 1000)] *)
Definition chunks (keys : list string) : list (list string) :=
  (fun k => take 1000 (drop (k * 1000) keys))
  <$> seq 0 ((length keys + 999) / 1000).

(** The loop of lines 222-227. *)
Fixpoint delete_all (c : client) (self : S3Manager)
    (todo : list (list string)) : list call * option error :=
  match todo with
  | [] => ([], None)
  | chunk :: rest =>
    let delete := delete_objects (bucket_name self) chunk true in
    match answer c delete with
    | Some e => ([delete], Some e)
    | None =>
      let '(calls, r) := delete_all c self rest in
      (delete :: calls, r)
    end
  end.

(** [sync_local_to_bucket(local_dir, delete_extraneous_remote,
    overwrite_existing)], given what [local_dir.is_dir()] and
    [local_dir.rglob("*")] answer: the calls made and the exception
    raised, if any. *)
Definition sync_local_to_bucket (c : client) (self : S3Manager)
    (local_dir : string) (is_dir : bool) (rglob : list entry)
    (delete_extraneous_remote overwrite_existing : bool)
  : list call * option error :=
  if negb is_dir then ([], Some (NotADirectoryError local_dir))
  else
    (* 1) Build set of local files & upload *)
    match upload_all c self overwrite_existing rglob ∅ with
    | (calls, inl e) => (calls, Some e)
    | (calls, inr local_files) =>
      (* 2) Optionally delete remote objects that don't exist locally *)
      if delete_extraneous_remote then
        let listing := paginate (bucket_name self) (prefix self) in
        match keys_to_delete self local_files
                (pages c (bucket_name self) (prefix self)) with
        | inl e => ((calls ++ [listing])%list, Some e)
        | inr keys =>
          let '(deletes, r) := delete_all c self (chunks keys) in
          ((calls ++ listing :: deletes)%list, r)
        end
      else (calls, None)
    end.

End S3.

(* ===================================================================== *)
(** ** Reading the calls of the bucket manager                            *)
(* ===================================================================== *)

Module Bucket.
Import S3.

(** The key lists of the [delete_objects] calls, in order. *)
Definition deleted (calls : list call) : list (list string) :=
  omap (fun c =>
          match c with
          | delete_objects _ keys _ => Some keys
          | _ => None
          end) calls.

(** The [upload_file] calls, in order. *)
Definition uploaded (calls : list call) : list call :=
  List.filter (fun c =>
                 match c with
                 | upload_file _ _ _ _ => true
                 | _ => false
                 end) calls.

(** The regular files among the entries. *)
Definition files (rglob : list entry) : list entry :=
  List.filter e_is_file rglob.

(** The keys of the pages of a listing that could be fetched. *)
Fixpoint listed_keys (listing : list (error + list string)) : list string :=
  match listing with
  | [] => []
  | inr contents :: rest => (contents ++ listed_keys rest)%list
  | inl _ :: rest => listed_keys rest
  end.

(** A listed key that is no directory marker and whose path under the
    prefix is not the relative path of a local file. *)
Definition extraneous (self : S3Manager) (rglob : list entry) (key : string)
  : bool :=
  negb (endswith key "/")
  && negb (bool_decide (rel_key self key ∈ e_rel <$> files rglob)).

(** The upload of a local file by [sync_local_to_bucket]. *)
Definition upload_of (self : S3Manager) (path : entry) : call :=
  upload_file (e_str path) (bucket_name self) (prefix self +:+ e_rel path) None.

(** [head_object] answers that there is no object for the file. *)
Definition missing (c : client) (self : S3Manager) (path : entry) : bool :=
  match answer c (head_object (bucket_name self)
                    (prefix self +:+ e_rel path)) with
  | Some (ClientError code) => bool_decide (code = "404")
  | _ => false
  end.

(** The uploads a sync is to make: every regular file, or only the ones
    without an object when existing objects are kept. *)
Definition to_upload (c : client) (self : S3Manager)
    (overwrite_existing : bool) (rglob : list entry) : list call :=
  upload_of self
  <$> List.filter (fun path => overwrite_existing || missing c self path)
        (files rglob).

(** The deletions a sync is to make, call by call. *)
Definition to_delete (c : client) (self : S3Manager)
    (delete_extraneous_remote : bool) (rglob : list entry)
  : list (list string) :=
  if delete_extraneous_remote
  then chunks (List.filter (extraneous self rglob)
                 (listed_keys (pages c (bucket_name self) (prefix self))))
  else [].

(** The last character is a slash. *)
Definition slash_last (s : string) : bool :=
  match String.rev s with
  | String a _ => bool_decide (a = "/"%char)
  | EmptyString => false
  end.

(** The first character is a slash. *)
Definition slash_first (s : string) : bool :=
  match s with
  | String a _ => bool_decide (a = "/"%char)
  | EmptyString => false
  end.

End Bucket.

(* ===================================================================== *)
(** ** Reading whole runs of the loop                                     *)
(* ===================================================================== *)

Module Runs.
Import Time Py Sup Claimed Observed.

(** The flags and the handle fit together: while the card is out, marked
    removed or marked quiet no worker runs behind the handle, and a card
    marked removed is not marked inserted. *)
Definition settled (s : State) : Prop :=
  (sd_inserted s = false \/ sd_was_removed s = true \/ was_in_quiet s = true ->
   running s = None)
  /\ (sd_was_removed s = true -> sd_inserted s = false).

(** The card is there and it is not quiet hours. *)
Definition wanted (quiet_cfg : option (dtime * dtime)) (env : Env) : bool :=
  match env_listdir env with
  | inr items =>
    match valid_dirs items with
    | [] => false
    | _ :: _ => negb (in_quiet quiet_cfg env)
    end
  | inl _ => false
  end.






(** Three lines of the source that announce a restart. *)
Definition reinserted_line : string :=
  "[sd_monitor] SD card reinserted. Restarting frame_manager...".
Definition quiet_ended_line : string :=
  "[sd_monitor] Quiet hours ended, restarting frame_manager...".
Definition stopping_existing_line : string :=
  "[sd_monitor] Stopping existing frame_manager process...".

Definition restart_lines : list string :=
  [reinserted_line; quiet_ended_line; stopping_existing_line].

(** None of the three lines is among the events. *)
Definition unannounced (evs : list event) : Prop :=
  forall line, line ∈ restart_lines -> Print line ∉ evs.


(** A number below one hundred in two digits, as in ["07:05"]. *)
Definition two_digits (n : Z) : string :=
  if n <? 10 then "0" +:+ str n else str n.

(** A time of day written ["HH:MM"]. *)
Definition hh_mm (h m : Z) : string := two_digits h +:+ ":" +:+ two_digits m.

(** No colon in the string. *)
Fixpoint colon_free (s : string) : bool :=
  match s with
  | EmptyString => true
  | String a s' => negb (bool_decide (a = ":"%char)) && colon_free s'
  end.

(** What [parse_hhmm] makes of the first two parts of a text. *)
Definition of_parts (p0 p1 : string) : option dtime :=
  match int_of_str p0, int_of_str p1 with
  | inr h, inr m =>
    if (0 <=? h) && (h <=? 23) && (0 <=? m) && (m <=? 59)
    then Some (hhmm h m)
    else None
  | _, _ => None
  end.

(** A valid hour and minute. *)
Definition minute_of_day (h m : Z) : Prop := 0 <= h <= 23 /\ 0 <= m <= 59.

(** The location holds no document that parses. *)
Definition unparsed (fs : string -> settings_file) (path : string) : Prop :=
  forall data, fs path <> SParsed data.

(** The lines [load_settings] prints for the locations that exist and do
    not parse. *)
Definition error_lines (fs : string -> settings_file) (paths : list string)
  : list event :=
  omap (fun path =>
          match fs path with
          | SBroken e =>
            Some (PrintExn ("[sd_monitor] Error reading settings from "
                            +:+ path +:+ ": ") e)
          | _ => None
          end) paths.

(** A directory the monitor cannot read or enter. *)
Definition stale (folder : Startup.mount) : bool :=
  Startup.m_isdir folder && negb (Startup.m_access folder).

(** The commands a sequence of actions runs. *)
Definition commands (acts : list Startup.action) : list (list string) :=
  omap (fun a => match a with Startup.Run c => Some c | _ => None end) acts.

End Runs.

(* ===================================================================== *)
(** ** More concrete files, mounts and buckets                            *)
(* ===================================================================== *)

Module Scenes.
Import Time Py Sup Claimed Examples.

(** The three locations of a frame whose scripts live in [/home/pi]. *)
Definition etc_settings : string := "/etc/epaper_frame/settings.json".
Definition home_settings : string := "/home/pi/.config/epaper_frame/settings.json".
Definition script_settings : string := "/home/pi/settings.json".
Definition locations : list string :=
  [etc_settings; home_settings; script_settings].

(** No settings file anywhere. *)
Definition no_settings : string -> settings_file := fun _ => SMissing.

(** A document that sets the interval to five minutes, and one that sets
    a quiet window. *)
Definition five_minutes : json :=
  JDict {["change_interval_minutes" := JInt 5]}.
Definition nightly : json :=
  JDict {["evening" := JStr "22:00"; "morning" := JStr "07:00"]}.

(** A garbled file in [/etc], the five minutes in the home directory and
    another document next to the scripts. *)
Definition some_settings (path : string) : settings_file :=
  if bool_decide (path = etc_settings)
  then SBroken (ValueError "Expecting value: line 1 column 1 (char 0)")
  else if bool_decide (path = home_settings) then SParsed five_minutes
  else SParsed (JDict {["picture_mode" := JStr "both"]}).

(** Only the garbled file. *)
Definition garbled_settings (path : string) : settings_file :=
  if bool_decide (path = etc_settings)
  then SBroken (ValueError "Expecting value: line 1 column 1 (char 0)")
  else SMissing.

(** A mount root with a card, a stale mount point and a file. *)
Definition mounts : list Startup.mount :=
  [Startup.mk_mount "SDCARD" true true;
   Startup.mk_mount "OLDCARD" true false;
   Startup.mk_mount "notes.txt" false true].

(** An [rm] that is refused. *)
Definition rm_refused (command : list string) : option Startup.run_error :=
  Some (Startup.CalledProcessError 1).

(** A manager for the folder [photos] of the bucket [frames]. *)
Definition photos : S3.S3Manager := S3.new "frames" "/photos/".

(** A bucket that holds two photos and a directory marker, where every
    call succeeds and no object is found by [head_object]. *)
Definition bucket : S3.client :=
  S3.mk_client
    (fun call =>
       match call with
       | S3.head_object _ _ => Some (S3.ClientError "404")
       | _ => None
       end)
    (fun _ _ => [inr ["photos/a.jpg"; "photos/old.jpg"; "photos/sub/"]]).

(** A card with one photo and one directory. *)
Definition card_files : list S3.entry :=
  [S3.mk_entry "/media/pi/SDCARD/s3_folder/a.jpg" "a.jpg" true;
   S3.mk_entry "/media/pi/SDCARD/s3_folder/sub" "sub" false].

End Scenes.

(* ===================================================================== *)
(** * Properties                                                          *)
(* ===================================================================== *)

(* ===================================================================== *)
(** ** Quiet hours                                                        *)
(* ===================================================================== *)

Module TimeFacts.
Import Time.

Lemma dtime_eq (a b : dtime) :
  hour a = hour b -> minute a = minute b -> second a = second b ->
  microsecond a = microsecond b -> a = b.
Proof. destruct a, b; simpl; intros; congruence. Qed.

Ltac order_cases a b :=
  unfold dtime_lt, dtime_le, dtime_ge, dtime_cmp, before, not_after;
  destruct (Z.compare_spec (hour a) (hour b));
  destruct (Z.compare_spec (minute a) (minute b));
  destruct (Z.compare_spec (second a) (second b));
  destruct (Z.compare_spec (microsecond a) (microsecond b)).

Lemma dtime_lt_before (a b : dtime) : dtime_lt a b = true <-> before a b.
Proof. order_cases a b; split; (discriminate || lia || reflexivity). Qed.

Lemma dtime_le_not_after (a b : dtime) :
  dtime_le a b = true <-> not_after a b.
Proof.
  split.
  - intros Hle. destruct (dtime_lt a b) eqn:Hlt.
    + left. now apply dtime_lt_before.
    + right. revert Hle Hlt. order_cases a b; intros; try discriminate.
      now apply dtime_eq.
  - intros [Hb | ->].
    + apply dtime_lt_before in Hb. revert Hb.
      unfold dtime_lt, dtime_le. now destruct (dtime_cmp a b).
    + unfold dtime_le, dtime_cmp. now rewrite !Z.compare_refl.
Qed.

Lemma dtime_ge_le (a b : dtime) : dtime_ge a b = dtime_le b a.
Proof.
  unfold dtime_ge, dtime_le, dtime_cmp.
  rewrite (Z.compare_antisym (hour a) (hour b)),
          (Z.compare_antisym (minute a) (minute b)),
          (Z.compare_antisym (second a) (second b)),
          (Z.compare_antisym (microsecond a) (microsecond b)).
  destruct (hour a ?= hour b), (minute a ?= minute b),
           (second a ?= second b), (microsecond a ?= microsecond b);
    reflexivity.
Qed.

(** The order is total: a time is before another or not after it. *)
Lemma before_or_not_after (a b : dtime) : before a b \/ not_after b a.
Proof.
  destruct (dtime_lt a b) eqn:Hlt.
  - left. now apply dtime_lt_before.
  - right. apply dtime_le_not_after. rewrite <- dtime_ge_le.
    revert Hlt. unfold dtime_lt, dtime_ge. now destruct (dtime_cmp a b).
Qed.

Lemma before_irrefl (a : dtime) : ~ before a a.
Proof. unfold before. lia. Qed.

Lemma before_not_after_excl (a b : dtime) : before a b -> ~ not_after b a.
Proof.
  intros Hab [Hba | ->]; [|now apply before_irrefl in Hab].
  unfold before in *. lia.
Qed.

(** On times given as hour and minute, the order is the order of the
    minute of the day. *)
Lemma before_hhmm (h m h' m' : Z) :
  0 <= m < 60 -> 0 <= m' < 60 ->
  before (hhmm h m) (hhmm h' m') <-> h * 60 + m < h' * 60 + m'.
Proof. unfold before, hhmm; simpl. lia. Qed.

(** C3. For every [now] and every window: when [evening] is before
    [morning] the function answers true exactly when
    [evening <= now < morning]; when [evening] is not before [morning] it
    answers true exactly when [now >= evening] or [now < morning]; and when
    [evening = morning] it answers true for every [now]. *)
Theorem in_quiet_hours_spec (now : datetime) (evening morning : dtime) :
  (before evening morning ->
     (in_quiet_hours now evening morning = true <->
      not_after evening (time_of now) /\ before (time_of now) morning))
  /\ (not_after morning evening ->
     (in_quiet_hours now evening morning = true <->
      not_after evening (time_of now) \/ before (time_of now) morning))
  /\ (evening = morning -> in_quiet_hours now evening morning = true).
Proof.
  assert (Hcross : not_after morning evening ->
     (in_quiet_hours now evening morning = true <->
      not_after evening (time_of now) \/ before (time_of now) morning)).
  { intros Hge. unfold in_quiet_hours.
    destruct (dtime_lt evening morning) eqn:Hlt.
    - apply dtime_lt_before in Hlt.
      now apply before_not_after_excl in Hlt.
    - rewrite orb_true_iff, dtime_ge_le, dtime_le_not_after, dtime_lt_before.
      reflexivity. }
  split; [|split]; [|exact Hcross|].
  - intros Hlt. unfold in_quiet_hours.
    apply dtime_lt_before in Hlt. rewrite Hlt.
    rewrite andb_true_iff, dtime_le_not_after, dtime_lt_before. reflexivity.
  - intros ->. apply Hcross; [now right|].
    destruct (before_or_not_after (time_of now) morning); auto.
Qed.

Lemma in_quiet_hours_spec_witness :
  in_quiet_hours (at_time (hhmm 23 30)) (hhmm 22 0) (hhmm 7 0) = true
  /\ in_quiet_hours (at_time (hhmm 21 0)) (hhmm 20 0) (hhmm 23 0) = true
  /\ in_quiet_hours (at_time (hhmm 12 0)) (hhmm 8 0) (hhmm 8 0) = true.
Proof.
  split; [|split].
  - apply (proj1 (proj2 (in_quiet_hours_spec
             (at_time (hhmm 23 30)) (hhmm 22 0) (hhmm 7 0)))).
    + left. unfold before; simpl. lia.
    + left. left. unfold before; simpl. lia.
  - apply (proj1 (in_quiet_hours_spec
             (at_time (hhmm 21 0)) (hhmm 20 0) (hhmm 23 0))).
    + unfold before; simpl. lia.
    + split; [left|]; unfold before; simpl; lia.
  - apply (proj2 (proj2 (in_quiet_hours_spec
             (at_time (hhmm 12 0)) (hhmm 8 0) (hhmm 8 0)))).
    reflexivity.
Defined.

End TimeFacts.

(* ===================================================================== *)
(** ** Settings                                                           *)
(* ===================================================================== *)

Module SettingsFacts.
Import Py Sup.

(** One step of the merge loop. *)
Lemma lookup_merge_keys (d : gmap string json) (keys : list string)
    (st : gmap string json) (k : string) :
  foldl (fun st key =>
           match d !! key with
           | Some v => <[key := v]> st
           | None => st
           end) st keys !! k
  = if bool_decide (k ∈ keys)
    then match d !! k with Some v => Some v | None => st !! k end
    else st !! k.
Proof.
  revert st. induction keys as [|a keys IH]; intros st; simpl.
  - reflexivity.
  - rewrite IH. destruct (decide (k = a)) as [->|Hne].
    + rewrite (bool_decide_eq_true_2 (a ∈ a :: keys)) by left.
      destruct (d !! a) eqn:Hd.
      * rewrite lookup_insert_eq. now destruct (bool_decide (a ∈ keys)).
      * now destruct (bool_decide (a ∈ keys)).
    + assert (Hst : (match d !! a with
                     | Some v => <[a := v]> st
                     | None => st
                     end) !! k = st !! k).
      { destruct (d !! a); [now rewrite lookup_insert_ne|reflexivity]. }
      rewrite Hst.
      destruct (decide (k ∈ keys)) as [Hin|Hnin].
      * rewrite !bool_decide_eq_true_2; [reflexivity|now right|assumption].
      * rewrite !bool_decide_eq_false_2; [reflexivity| |assumption].
        intros Hin. apply elem_of_cons in Hin as [?|?]; contradiction.
Qed.

(** The merge overwrites exactly the keys that are both default keys and
    keys of the document. *)
Lemma merge_into_lookup (settings : gmap string json) (d : gmap string json)
    (k : string) :
  merge_into settings (JDict d) !! k
  = if bool_decide (k ∈ DEFAULT_KEYS)
    then match d !! k with Some v => Some v | None => settings !! k end
    else settings !! k.
Proof. apply lookup_merge_keys. Qed.

Lemma merge_into_twice (settings : gmap string json) (data : json) :
  merge_into (merge_into settings data) data = merge_into settings data.
Proof.
  destruct data as [| | | | | |d]; try reflexivity.
  apply map_eq. intros k. rewrite !merge_into_lookup.
  destruct (bool_decide (k ∈ DEFAULT_KEYS)); [|reflexivity].
  now destruct (d !! k).
Qed.

(** C9. Merging the same override document onto the defaults a second
    time gives the configuration that merging it once gives. *)
Theorem merge_idempotent (data : json) :
  merge_into (merge_into DEFAULT_SETTINGS data) data
  = merge_into DEFAULT_SETTINGS data.
Proof. apply merge_into_twice. Qed.



End SettingsFacts.

(* ===================================================================== *)
(** ** Strings and conversions                                            *)
(* ===================================================================== *)

Module PyFacts.
Import Py Claimed.

Lemma rev_app_rev_app (s1 s2 s3 : string) :
  String.rev_app (String.rev_app s1 s2) s3 = String.rev_app s2 (s1 +:+ s3).
Proof.
  revert s2 s3. induction s1 as [|a s1 IH]; intros s2 s3; simpl.
  - reflexivity.
  - rewrite IH. reflexivity.
Qed.

Lemma append_empty_r (s : string) : s +:+ EmptyString = s.
Proof.
  induction s as [|a s IH]; [reflexivity|].
  change (String a (s +:+ EmptyString) = String a s). now f_equal.
Qed.

Lemma rev_involutive (s : string) : String.rev (String.rev s) = s.
Proof.
  unfold String.rev. rewrite rev_app_rev_app. simpl. apply append_empty_r.
Qed.

Lemma all_digits_rev_app (s1 s2 : string) :
  all_digits s1 = true -> all_digits s2 = true ->
  all_digits (String.rev_app s1 s2) = true.
Proof.
  revert s2. induction s1 as [|a s1 IH]; intros s2 H1 H2; simpl in *.
  - assumption.
  - apply andb_true_iff in H1 as [Ha H1]. apply IH; [assumption|].
    simpl. now rewrite Ha, H2.
Qed.

Lemma digit_not_space (a : ascii) :
  bool_decide (is_Some (digit_val a)) = true -> isspace a = false.
Proof.
  destruct a as [[] [] [] [] [] [] [] []]; vm_compute; congruence.
Qed.

Lemma lstrip_digits (s : string) : all_digits s = true -> lstrip s = s.
Proof.
  destruct s as [|a s]; simpl; [reflexivity|].
  intros H. apply andb_true_iff in H as [Ha _].
  now rewrite (digit_not_space a Ha).
Qed.

(** Stripping leaves a string of digits as it is. *)
Lemma strip_digits (s : string) : all_digits s = true -> strip s = s.
Proof.
  intros H. unfold strip, rstrip. rewrite (lstrip_digits s H).
  rewrite lstrip_digits; [apply rev_involutive|].
  now apply all_digits_rev_app.
Qed.

Lemma parse_digits_all (s : string) (acc : Z) (b : bool) :
  all_digits s = true -> (b = true \/ s <> EmptyString) ->
  parse_digits acc b s = Some (decimal_value_from acc s).
Proof.
  revert acc b. induction s as [|a s IH]; intros acc b H Hb; simpl in *.
  - destruct Hb as [->|Hb]; [reflexivity|contradiction].
  - apply andb_true_iff in H as [Ha H].
    apply bool_decide_eq_true in Ha as [d Hd]. rewrite Hd. simpl.
    apply IH; [assumption|now left].
Qed.

Lemma digit_not_sign (a : ascii) :
  bool_decide (is_Some (digit_val a)) = true ->
  a <> "+"%char /\ a <> "-"%char.
Proof.
  destruct a as [[] [] [] [] [] [] [] []]; vm_compute; intros; split; congruence.
Qed.

(** [int] of a digit string is the number it denotes. *)
Lemma int_of_str_digits (s : string) :
  isdigit s = true -> int_of_str s = inr (decimal_value s).
Proof.
  intros H. destruct s as [|a s]; [discriminate|].
  unfold isdigit in H. unfold int_of_str. rewrite (strip_digits _ H).
  assert (Hp : parse_digits 0 false (String a s)
               = Some (decimal_value (String a s))).
  { apply parse_digits_all; [assumption|now right]. }
  simpl in H. apply andb_true_iff in H as [Ha _].
  destruct (digit_not_sign a Ha) as [Hplus Hminus].
  assert (Hm : match String a s with
               | String "+" t' => parse_digits 0 false t'
               | String "-" t' => Z.opp <$> parse_digits 0 false t'
               | _ => parse_digits 0 false (String a s)
               end = parse_digits 0 false (String a s)).
  { destruct a as [[] [] [] [] [] [] [] []]; try reflexivity;
      exfalso; (now apply Hplus) || (now apply Hminus). }
  rewrite Hm, Hp. reflexivity.
Qed.

Lemma decimal_value_from_nonneg (s : string) (acc : Z) :
  0 <= acc -> 0 <= decimal_value_from acc s.
Proof.
  revert acc. induction s as [|a s IH]; intros acc Hacc; simpl; [assumption|].
  apply IH. unfold digit_val.
  destruct (Ascii.is_nat a); simpl; lia.
Qed.

End PyFacts.

(* ===================================================================== *)
(** ** Refresh time                                                       *)
(* ===================================================================== *)

Module RefreshFacts.
Import Py Sup Claimed Observed PyFacts.

Lemma emit_emits (e : event) (s : State) : emit e s = emits [e] s.
Proof. reflexivity. Qed.

Lemma emits_nil (s : State) : emits [] s = s.
Proof. destruct s. unfold emits; simpl. now rewrite app_nil_r. Qed.

Lemma emits_emits (evs1 evs2 : list event) (s : State) :
  emits evs2 (emits evs1 s) = emits (evs1 ++ evs2) s.
Proof. unfold emits; simpl. now rewrite app_assoc. Qed.

Ltac run :=
  unfold mbind, M_bind, bind, try_except, lift, ret, raise, print, print_exn,
    modify, get in *.

Lemma fallback_result (fs : string -> file_state)
    (sd_path filename : string) :
  exists evs, spawns evs = [] /\ forall s,
    match fs (path_join sd_path filename) with
    | FMissing =>
      print ("[sd_monitor] " +:+ filename +:+ " not found, defaulting to 600");;
      ret 600
    | FUnreadable e =>
      print_exn ("[sd_monitor] Error reading " +:+ filename +:+ ": ") e;;
      ret 600
    | FContent text =>
      try_except
        (let number := strip text in
         if isdigit number
         then lift (int_of_str number)
         else
           print ("[sd_monitor] Invalid number in " +:+ filename +:+ ", defaulting to 600");;
           ret 600)
        (fun e =>
           print_exn ("[sd_monitor] Error reading " +:+ filename +:+ ": ") e;;
           ret 600)
    end s = Ok (file_refresh_time fs sd_path filename) (emits evs s).
Proof.
  unfold file_refresh_time. run.
  destruct (fs (path_join sd_path filename)) as [|e|text].
  - eexists. split; [|intros s; rewrite emit_emits; reflexivity]. reflexivity.
  - eexists. split; [|intros s; rewrite emit_emits; reflexivity]. reflexivity.
  - simpl. destruct (isdigit (strip text)) eqn:Hd.
    + rewrite (int_of_str_digits _ Hd). exists []. split; [reflexivity|].
      intros s. now rewrite emits_nil.
    + eexists. split; [|intros s; rewrite emit_emits; reflexivity]. reflexivity.
Qed.

Lemma bind_Ok {A B} (m : M A) (k : A -> M B) (s s' : State) (a : A) :
  m s = Ok a s' -> (m ≫= k) s = k a s'.
Proof. intros Hm. unfold mbind, M_bind, bind. now rewrite Hm. Qed.

Lemma interval_result (o : option json) :
  exists r evs,
    spawns evs = []
    /\ (forall s,
       try_except
         (match o with
          | None | Some JNull => ret None
          | Some v =>
            minutes ← lift (int_of v);
            if 0 <? minutes then ret (Some (minutes * 60)) else ret None
          end)
         (fun e =>
            print_exn "[sd_monitor] Invalid change_interval_minutes in settings: " e;;
            ret None) s = Ok r (emits evs s))
    /\ (forall v m, o = Some v -> int_of v = inr m -> 0 < m ->
        r = Some (m * 60))
    /\ ((forall v m, o = Some v -> int_of v = inr m -> m <= 0) -> r = None).
Proof.
  assert (Hnone : o = None \/ (exists v e, o = Some v /\ int_of v = inl e) ->
    (forall v m, o = Some v -> int_of v = inr m -> 0 < m ->
        @None Z = Some (m * 60))
    /\ ((forall v m, o = Some v -> int_of v = inr m -> m <= 0) ->
        @None Z = None)).
  { intros Ho. split; [|reflexivity].
    intros v m Hv Hm _. destruct Ho as [->|(v' & e & -> & He)]; [discriminate|].
    congruence. }
  assert (Hgen : forall v, o = Some v -> exists r evs,
    spawns evs = []
    /\ (forall s,
       try_except
         (minutes ← lift (int_of v);
          if 0 <? minutes then ret (Some (minutes * 60)) else ret None)
         (fun e =>
            print_exn "[sd_monitor] Invalid change_interval_minutes in settings: " e;;
            ret None) s = Ok r (emits evs s))
    /\ (forall v m, o = Some v -> int_of v = inr m -> 0 < m ->
        r = Some (m * 60))
    /\ ((forall v m, o = Some v -> int_of v = inr m -> m <= 0) -> r = None)).
  { intros v Hv. run. destruct (int_of v) as [e|m] eqn:Hi.
    - exists None,
        [PrintExn "[sd_monitor] Invalid change_interval_minutes in settings: " e].
      split; [reflexivity|]. split.
      + intros s. reflexivity.
      + apply Hnone. right. eauto.
    - destruct (0 <? m) eqn:Hpos.
      + exists (Some (m * 60)), []. split; [reflexivity|].
        split; [intros s; now rewrite emits_nil|]. split.
        * intros v' m' Hv' Hm' _. congruence.
        * intros Hall. apply Z.ltb_lt in Hpos.
          specialize (Hall v m Hv Hi). lia.
      + exists None, []. split; [reflexivity|].
        split; [intros s; now rewrite emits_nil|]. split; [|reflexivity].
        intros v' m' Hv' Hm' Hlt. apply Z.ltb_ge in Hpos.
        assert (m' = m) by congruence. lia. }
  destruct o as [v|].
  - destruct v; try (now apply Hgen).
    exists None, []. split; [reflexivity|].
    split; [intros s; now rewrite emits_nil|].
    apply Hnone. right. exists JNull. eexists. split; reflexivity.
  - exists None, []. split; [reflexivity|].
    split; [intros s; now rewrite emits_nil|].
    apply Hnone. now left.
Qed.

(** The result of [get_refresh_time] and the lines it prints depend on
    the settings and the card only, not on the state it is called in. *)
Lemma get_refresh_time_pure (fs : string -> file_state)
    (sd_path filename : string) (settings : option (gmap string json)) :
  exists n evs,
    spawns evs = []
    /\ (forall s,
       get_refresh_time fs sd_path filename settings s = Ok n (emits evs s))
    /\ (forall v m,
          default DEFAULT_SETTINGS settings !! "change_interval_minutes" = Some v ->
          int_of v = inr m -> 0 < m -> n = m * 60)
    /\ ((forall v m,
          default DEFAULT_SETTINGS settings !! "change_interval_minutes" = Some v ->
          int_of v = inr m -> m <= 0) ->
        n = file_refresh_time fs sd_path filename).
Proof.
  unfold get_refresh_time.
  set (o := default DEFAULT_SETTINGS settings !! "change_interval_minutes").
  clearbody o.
  destruct (interval_result o) as (r & evs0 & Hsp0 & Hr & Hpos & Hneg).
  destruct r as [seconds|].
  - exists seconds, evs0. split; [exact Hsp0|]. split; [|split].
    + intros s. now rewrite (bind_Ok _ _ _ _ _ (Hr s)).
    + intros v m Hv Hm Hlt. specialize (Hpos v m Hv Hm Hlt). congruence.
    + intros Hall. specialize (Hneg Hall). discriminate.
  - destruct (fallback_result fs sd_path filename) as (evs & Hsp & Hf).
    exists (file_refresh_time fs sd_path filename), (evs0 ++ evs)%list.
    split.
    { unfold spawns in *. now rewrite List.filter_app, Hsp0, Hsp. }
    split; [|split; [|reflexivity]].
    + intros s. rewrite (bind_Ok _ _ _ _ _ (Hr s)).
      rewrite <- emits_emits. apply Hf.
    + intros v m Hv Hm Hlt. specialize (Hpos v m Hv Hm Hlt). discriminate.
Qed.




Example refresh_time_of_string_interval :
  get_refresh_time empty_card "/media/pi/SD" "refresh_time.txt"
    (Some settings_interval_str) init = Ok 900 init.
Proof. reflexivity. Qed.

(** The fallback value is the file's number or 600. *)
Lemma file_refresh_time_cases (fs : string -> file_state)
    (sd_path filename : string) :
  (forall text, fs (path_join sd_path filename) = FContent text ->
     isdigit (strip text) = true ->
     file_refresh_time fs sd_path filename = decimal_value (strip text))
  /\ (forall text, fs (path_join sd_path filename) = FContent text ->
     isdigit (strip text) = false ->
     file_refresh_time fs sd_path filename = 600)
  /\ (fs (path_join sd_path filename) = FMissing ->
     file_refresh_time fs sd_path filename = 600)
  /\ (forall e, fs (path_join sd_path filename) = FUnreadable e ->
     file_refresh_time fs sd_path filename = 600).
Proof.
  unfold file_refresh_time. repeat split.
  - intros text -> ->. reflexivity.
  - intros text -> ->. reflexivity.
  - intros ->. reflexivity.
  - intros e ->. reflexivity.
Qed.

End RefreshFacts.

(* ===================================================================== *)
(** ** Worker processes and the polling loop                              *)
(* ===================================================================== *)

Module MonitorFacts.
Import Time Py Sup Claimed Observed Examples PyFacts RefreshFacts.

Lemma state_ext (a b : State) :
  process a = process b -> sd_was_removed a = sd_was_removed b ->
  sd_inserted a = sd_inserted b -> was_in_quiet a = was_in_quiet b ->
  live a = live b -> next_pid a = next_pid b -> out a = out b -> a = b.
Proof. destruct a, b. cbn. intros. congruence. Qed.

Lemma Ok_ext {A} (a : A) (s s' : State) : s = s' -> Ok a s = Ok a s'.
Proof. now intros ->. Qed.

Lemma Raise_ext {A} (e : exn) (s s' : State) :
  s = s' -> @Raise A e s = Raise e s'.
Proof. now intros ->. Qed.

Ltac sim :=
  cbn [process sd_was_removed sd_inserted was_in_quiet live next_pid out app
       emits emit exited set_process set_sd_was_removed set_sd_inserted
       set_was_in_quiet set_live set_next_pid].

Ltac st_eq :=
  try first [apply Ok_ext | apply Raise_ext];
  apply state_ext; sim; rewrite <- ?app_assoc; sim; reflexivity.

Section WithInstall.
Context `{Install}.

Lemma stop_frame_manager_outcome (env : Env) (reason : string) (s : State) :
  stop_frame_manager env reason s =
  match running s with
  | None => Ok tt (set_process None s)
  | Some p =>
    match env_send_signal env with
    | Some e =>
      Ok tt (set_process None
               (emits [Print (stop_message reason);
                       SendSignal p "SIGTERM" (Some e);
                       PrintExn "[sd_monitor] Error stopping frame_manager: " e] s))
    | None =>
      match env_wait env with
      | WaitReturns =>
        Ok tt (set_process None
                 (emits [Print (stop_message reason);
                         SendSignal p "SIGTERM" None; Wait p None]
                    (set_live (live s ∖ {[p]}) s)))
      | WaitRaises e =>
        Ok tt (set_process None
                 (emits [Print (stop_message reason);
                         SendSignal p "SIGTERM" None; Wait p (Some e);
                         PrintExn "[sd_monitor] Error stopping frame_manager: " e] s))
      | WaitForever => Hang
      end
    end
  end.
Proof.
  unfold stop_frame_manager, running_process, running, send_signal, wait,
    stop_message. run.
  destruct (process s) as [p|]; [|reflexivity].
  destruct (bool_decide (p ∈ live s)) eqn:Hlive; [|reflexivity].
  simpl. rewrite Hlive.
  destruct (env_send_signal env) as [e|]; simpl.
  - st_eq.
  - rewrite Hlive. destruct (env_wait env) as [|e|]; simpl; try reflexivity.
    + st_eq.
    + st_eq.
Qed.

Lemma start_frame_manager_outcome (env : Env) (sd_path : string)
    (settings : gmap string json) (s : State) :
  exists n evs,
    (forall s0,
       get_refresh_time (env_fs env) sd_path "refresh_time.txt" (Some settings) s0
       = Ok n (emits evs s0))
    /\ start_frame_manager env sd_path settings s =
       let spawn s0 :=
         match env_popen env with
         | Some e =>
           Raise e (emits (evs ++ [Print (starting_message sd_path n)]) s0)
         | None =>
           Ok tt (mk_State (Some (next_pid s0)) (sd_was_removed s0)
                    (sd_inserted s0) (was_in_quiet s0)
                    (live s0 ∪ {[next_pid s0]}) (S (next_pid s0))
                    (out s0 ++ evs ++ spawn_events (next_pid s0) sd_path n))
         end in
       match running s with
       | None => spawn s
       | Some p =>
         match env_send_signal env with
         | Some e =>
           Raise e
             (emits [Print "[sd_monitor] Stopping existing frame_manager process...";
                     SendSignal p "SIGTERM" (Some e)] s)
         | None =>
           match env_wait env with
           | WaitReturns =>
             spawn (emits (restart_stop_events p) (set_live (live s ∖ {[p]}) s))
           | WaitRaises e =>
             Raise e
               (emits [Print "[sd_monitor] Stopping existing frame_manager process...";
                       SendSignal p "SIGTERM" None; Wait p (Some e)] s)
           | WaitForever => Hang
           end
         end
       end.
Proof.
  destruct (get_refresh_time_pure (env_fs env) sd_path "refresh_time.txt"
              (Some settings)) as (n & evs & _ & Hr & _).
  exists n, evs. split; [exact Hr|].
  unfold start_frame_manager, running_process, running, send_signal, wait,
    popen, spawn_events, restart_stop_events, worker_args, starting_message.
  run.
  destruct (process s) as [p|].
  - destruct (bool_decide (p ∈ live s)) eqn:Hlive.
    + simpl. rewrite Hlive.
      destruct (env_send_signal env) as [e|]; simpl.
      * st_eq.
      * rewrite Hlive. destruct (env_wait env) as [|e|]; simpl; try reflexivity.
        -- rewrite Hr. sim. destruct (env_popen env); st_eq.
        -- st_eq.
    + rewrite Hr. sim. destruct (env_popen env); st_eq.
  - rewrite Hr. sim. destruct (env_popen env); st_eq.
Qed.

Lemma tick_listdir_error (settings : gmap string json)
    (quiet_cfg : option (dtime * dtime)) (env : Env) (s : State) (e : exn) :
  env_listdir env = inl e ->
  tick settings quiet_cfg env s
  = Ok tt (emit (PrintExn "[sd_monitor] Error monitoring SD card: " e)
             (exited (env_exit_pre env) s)).
Proof.
  intros Hl. unfold tick, exits. run. rewrite Hl. reflexivity.
Qed.

Lemma tick_absent (settings : gmap string json)
    (quiet_cfg : option (dtime * dtime)) (env : Env) (s : State)
    (items : list (string * bool)) :
  env_listdir env = inr items -> valid_dirs items = [] ->
  tick settings quiet_cfg env s
  = if sd_inserted s
    then stop_frame_manager env "SD card removed"
           (exited (env_exit_mid env)
              (set_sd_was_removed true
                 (set_sd_inserted false
                    (emit (Print "[sd_monitor] SD card removed.")
                       (exited (env_exit_pre env) s)))))
    else Ok tt (exited (env_exit_pre env) s).
Proof.
  intros Hl Hd. unfold valid_dirs in Hd. unfold tick, exits. run.
  rewrite Hl. simpl. rewrite Hd. simpl.
  destruct (sd_inserted s); [|reflexivity].
  simpl. 
  match goal with
  | |- context [stop_frame_manager env ?r ?st] =>
    change st with (exited (env_exit_mid env)
              (set_sd_was_removed true
                 (set_sd_inserted false
                    (emit (Print "[sd_monitor] SD card removed.")
                       (exited (env_exit_pre env) s)))));
    rewrite (stop_frame_manager_outcome env r)
  end.
  destruct (running _); [|reflexivity].
  destruct (env_send_signal env); [reflexivity|].
  destruct (env_wait env); reflexivity.
Qed.

Lemma running_process_eq (s : State) : running_process s = Ok (running s) s.
Proof. reflexivity. Qed.

Lemma tick_quiet (settings : gmap string json)
    (quiet_cfg : option (dtime * dtime)) (env : Env) (s : State)
    (items : list (string * bool)) (first : string) (rest : list string) :
  env_listdir env = inr items -> valid_dirs items = first :: rest ->
  in_quiet quiet_cfg env = true ->
  tick settings quiet_cfg env s
  = let s1 := exited (env_exit_pre env) s in
    let mark s2 :=
      set_was_in_quiet true (set_sd_was_removed false (set_sd_inserted true s2)) in
    match running s1 with
    | None => Ok tt (mark s1)
    | Some _ =>
      match stop_frame_manager env "entering quiet hours"
              (exited (env_exit_mid env) s1) with
      | Ok _ s2 => Ok tt (mark s2)
      | Raise e s2 =>
        Ok tt (emit (PrintExn "[sd_monitor] Error monitoring SD card: " e) s2)
      | Hang => Hang
      end
    end.
Proof.
  intros Hl Hd Hq. unfold valid_dirs in Hd. unfold in_quiet in Hq.
  unfold tick, exits. run. rewrite Hl. cbv beta iota. rewrite Hd, Hq.
  rewrite running_process_eq. fold (exited (env_exit_pre env) s).
  destruct (running (exited (env_exit_pre env) s)) as [p|]; simpl.
  - fold (exited (env_exit_mid env) (exited (env_exit_pre env) s)).
    destruct (stop_frame_manager env "entering quiet hours" _); reflexivity.
  - reflexivity.
Qed.


Lemma tick_active (settings : gmap string json)
    (quiet_cfg : option (dtime * dtime)) (env : Env) (s : State)
    (items : list (string * bool)) (first : string) (rest : list string) :
  env_listdir env = inr items -> valid_dirs items = first :: rest ->
  in_quiet quiet_cfg env = false ->
  tick settings quiet_cfg env s
  = match need_start (exited (env_exit_pre env) s) with
    | Ok true s1 =>
      match start_frame_manager env (path_join SD_MOUNT_BASE first) settings
              (exited (env_exit_mid env) s1) with
      | Ok _ s2 =>
        Ok tt (set_was_in_quiet false
                 (set_sd_was_removed false (set_sd_inserted true s2)))
      | Raise e s2 =>
        Ok tt (emit (PrintExn "[sd_monitor] Error monitoring SD card: " e) s2)
      | Hang => Hang
      end
    | Ok false s1 => Ok tt s1
    | Raise e s1 =>
      Ok tt (emit (PrintExn "[sd_monitor] Error monitoring SD card: " e) s1)
    | Hang => Hang
    end.
Proof.
  intros Hl Hd Hq. unfold valid_dirs in Hd. unfold in_quiet in Hq.
  unfold tick, exits. run. rewrite Hl. cbv beta iota. rewrite Hd, Hq.
  fold (exited (env_exit_pre env) s).
  destruct (need_start (exited (env_exit_pre env) s)) as [[] s1|e s1|];
    try reflexivity.
  simpl. fold (exited (env_exit_mid env) s1).
  destruct (start_frame_manager env _ settings _); reflexivity.
Qed.

Lemma stop_never_raises (env : Env) (reason : string)
    (s : State) (e : exn) (s' : State) :
  stop_frame_manager env reason s = Raise e s' -> False.
Proof.
  rewrite stop_frame_manager_outcome.
  destruct (running s); [|discriminate].
  destruct (env_send_signal env); [discriminate|].
  destruct (env_wait env); discriminate.
Qed.

(** C8. [stop_frame_manager] never raises; whenever it returns, the
    handle is cleared; an error from the signal or from the wait is
    printed and the call still returns with the handle cleared; with no
    running worker behind the handle (none at all, or one that has
    exited) the call returns with the handle cleared and does nothing
    else; and it returns unless the wait never ends. *)
Theorem stop_frame_manager_clears_handle (env : Env) (reason : string)
    (s : State) :
  (forall e s', stop_frame_manager env reason s <> Raise e s')
  /\ (forall s', stop_frame_manager env reason s = Ok tt s' ->
      process s' = None)
  /\ (forall p e,
      running s = Some p ->
      env_send_signal env = Some e
      \/ (env_send_signal env = None /\ env_wait env = WaitRaises e) ->
      exists s',
        stop_frame_manager env reason s = Ok tt s'
        /\ process s' = None
        /\ last (out s')
           = Some (PrintExn "[sd_monitor] Error stopping frame_manager: " e))
  /\ (running s = None ->
      stop_frame_manager env reason s = Ok tt (set_process None s))
  /\ (env_wait env <> WaitForever ->
      exists s', stop_frame_manager env reason s = Ok tt s').
Proof.
  rewrite stop_frame_manager_outcome.
  split; [|split; [|split; [|split]]].
  - intros e s'. destruct (running s); [|discriminate].
    destruct (env_send_signal env); [discriminate|].
    destruct (env_wait env); discriminate.
  - intros s'. destruct (running s).
    + destruct (env_send_signal env).
      * intros [= <-]. reflexivity.
      * destruct (env_wait env); try discriminate; intros [= <-]; reflexivity.
    + intros [= <-]. reflexivity.
  - intros p e -> [->|[-> ->]]; eexists; (split; [reflexivity|]);
      (split; [reflexivity|]).
    + simpl. 
      change (out s ++ [Print (stop_message reason); SendSignal p "SIGTERM" (Some e);
         PrintExn "[sd_monitor] Error stopping frame_manager: " e])%list
        with (out s ++ [Print (stop_message reason); SendSignal p "SIGTERM" (Some e)] ++
         [PrintExn "[sd_monitor] Error stopping frame_manager: " e])%list.
      now rewrite app_assoc, last_snoc.
    + simpl.
      change (out s ++ [Print (stop_message reason); SendSignal p "SIGTERM" None;
         Wait p (Some e);
         PrintExn "[sd_monitor] Error stopping frame_manager: " e])%list
        with (out s ++ [Print (stop_message reason); SendSignal p "SIGTERM" None;
         Wait p (Some e)] ++
         [PrintExn "[sd_monitor] Error stopping frame_manager: " e])%list.
      now rewrite app_assoc, last_snoc.
  - intros ->. reflexivity.
  - intros Hw. destruct (running s); [|eauto].
    destruct (env_send_signal env); [eauto|].
    destruct (env_wait env); eauto. contradiction.
Qed.

(** C2, as the code has it. When listing the mount root raises, the
    exception is caught at the end of the iteration and printed, and
    nothing else happens: the handle and the three flags are as they
    were, and no worker is signalled, waited for or spawned. *)
Theorem tick_listing_failure (settings : gmap string json)
    (quiet_cfg : option (dtime * dtime)) (env : Env) (s : State) (e : exn) :
  env_listdir env = inl e ->
  exists s',
    tick settings quiet_cfg env s = Ok tt s'
    /\ process s' = process s
    /\ sd_inserted s' = sd_inserted s
    /\ sd_was_removed s' = sd_was_removed s
    /\ was_in_quiet s' = was_in_quiet s
    /\ live s' = live s ∖ env_exit_pre env
    /\ out s'
       = (out s ++ [PrintExn "[sd_monitor] Error monitoring SD card: " e])%list.
Proof.
  intros Hl. rewrite (tick_listdir_error _ _ _ _ _ Hl).
  eexists. split; [reflexivity|]. repeat split.
Qed.

Lemma running_Some (s : State) (p : nat) :
  running s = Some p <-> process s = Some p /\ p ∈ live s.
Proof.
  unfold running. destruct (process s) as [q|]; [|split; [discriminate|]].
  - destruct (bool_decide (q ∈ live s)) eqn:Hq.
    + apply bool_decide_eq_true in Hq. split.
      * intros [= <-]. auto.
      * intros [[= <-] _]. reflexivity.
    + apply bool_decide_eq_false in Hq. split; [discriminate|].
      intros [[= <-] Hin]. contradiction.
  - intros [? _]. discriminate.
Qed.

(** What a completed [stop_frame_manager] leaves behind. *)
Lemma stop_frame_manager_ok (env : Env) (reason : string) (s s' : State) :
  stop_frame_manager env reason s = Ok tt s' ->
  process s' = None
  /\ sd_was_removed s' = sd_was_removed s
  /\ sd_inserted s' = sd_inserted s
  /\ was_in_quiet s' = was_in_quiet s
  /\ next_pid s' = next_pid s
  /\ live s' ⊆ live s
  /\ exists evs,
      out s' = (out s ++ evs)%list
      /\ spawns evs = []
      /\ (forall p, process s = Some p -> p ∈ live s' -> stop_failed p evs)
      /\ (forall p, running s = Some p ->
            exists r evs',
              evs = Print (stop_message reason)
                      :: SendSignal p "SIGTERM" r :: evs').
Proof.
  rewrite stop_frame_manager_outcome.
  destruct (running s) as [q|] eqn:Hq.
  - apply running_Some in Hq as [Hq Hlive].
    destruct (env_send_signal env) as [e|].
    + intros [= <-]. sim. repeat (split; [reflexivity|]).
      eexists. split; [reflexivity|]. split; [reflexivity|]. split.
      * intros p Hp _. assert (p = q) as -> by congruence.
        exists e. left. set_solver.
      * intros p [= <-]. eauto.
    + destruct (env_wait env) as [|e|]; try discriminate; intros [= <-]; sim.
      * repeat (split; [reflexivity|]). split; [set_solver|].
        eexists. split; [reflexivity|]. split; [reflexivity|]. split.
        -- intros p Hp Hin. assert (p = q) as -> by congruence. set_solver.
        -- intros p [= <-]. eauto.
      * repeat (split; [reflexivity|]).
        eexists. split; [reflexivity|]. split; [reflexivity|]. split.
        -- intros p Hp _. assert (p = q) as -> by congruence.
           exists e. right. set_solver.
        -- intros p [= <-]. eauto.
  - intros [= <-]. sim. repeat (split; [reflexivity|]).
    exists []. split; [now rewrite app_nil_r|]. split; [reflexivity|]. split.
    + intros p Hp Hin.
      assert (running s = Some p) by (apply running_Some; auto). congruence.
    + intros p [=].
Qed.

Lemma stop_frame_manager_returns (env : Env) (reason : string) (s : State) :
  env_wait env <> WaitForever ->
  exists s', stop_frame_manager env reason s = Ok tt s'.
Proof.
  intros Hw. rewrite stop_frame_manager_outcome.
  destruct (running s); [|eauto].
  destruct (env_send_signal env); [eauto|].
  destruct (env_wait env); eauto. contradiction.
Qed.

Lemma spawns_app (evs1 evs2 : list event) :
  spawns (evs1 ++ evs2) = (spawns evs1 ++ spawns evs2)%list.
Proof. apply List.filter_app. Qed.

(** What a completed [start_frame_manager] leaves behind: the worker that
    was running, if any, was signalled and waited for before the new one
    was spawned, and the handle refers to the new one. *)
Lemma start_frame_manager_ok (env : Env) (sd_path : string)
    (settings : gmap string json) (s s' : State) :
  start_frame_manager env sd_path settings s = Ok tt s' ->
  exists n evs,
    (forall s0,
       get_refresh_time (env_fs env) sd_path "refresh_time.txt" (Some settings) s0
       = Ok n (emits evs s0))
    /\ spawns evs = []
    /\ env_popen env = None
    /\ process s' = Some (next_pid s)
    /\ sd_was_removed s' = sd_was_removed s
    /\ sd_inserted s' = sd_inserted s
    /\ was_in_quiet s' = was_in_quiet s
    /\ next_pid s' = S (next_pid s)
    /\ live s' = live s ∖ from_option singleton ∅ (running s) ∪ {[next_pid s]}
    /\ out s'
       = (out s ++ from_option restart_stop_events [] (running s)
            ++ evs ++ spawn_events (next_pid s) sd_path n)%list.
Proof.
  destruct (start_frame_manager_outcome env sd_path settings s)
    as (n & evs & Hr & ->).
  destruct (get_refresh_time_pure (env_fs env) sd_path "refresh_time.txt"
              (Some settings)) as (n' & evs' & Hsp & Hr' & _).
  assert (Heq : Ok n (emits evs init) = Ok n' (emits evs' init))
    by (rewrite <- Hr, <- Hr'; reflexivity).
  injection Heq as -> ->.
  intros Hs'. exists n', evs'. split; [exact Hr|]. split; [exact Hsp|].
  cbv zeta in Hs'.
  destruct (running s) as [p|] eqn:Hp.
  - destruct (env_send_signal env); [discriminate|].
    destruct (env_wait env); try discriminate.
    destruct (env_popen env); [discriminate|].
    injection Hs' as <-. sim. repeat (split; [reflexivity|]).
    cbn [from_option]. now rewrite <- app_assoc.
  - destruct (env_popen env); [discriminate|].
    injection Hs' as <-. sim. repeat (split; [reflexivity|]).
    cbn [from_option]. split; [|reflexivity].
    f_equal. set_solver.
Qed.

(** What a [start_frame_manager] that raises leaves behind: the handle
    and the flags as they were and no new worker. *)
Lemma start_frame_manager_raise (env : Env) (sd_path : string)
    (settings : gmap string json) (s s' : State) (e : exn) :
  start_frame_manager env sd_path settings s = Raise e s' ->
  process s' = process s
  /\ sd_was_removed s' = sd_was_removed s
  /\ sd_inserted s' = sd_inserted s
  /\ was_in_quiet s' = was_in_quiet s
  /\ next_pid s' = next_pid s
  /\ live s' ⊆ live s
  /\ exists evs,
      out s' = (out s ++ evs)%list
      /\ spawns evs = []
      /\ (forall p, process s = Some p -> p ∈ live s' -> stop_failed p evs).
Proof.
  destruct (start_frame_manager_outcome env sd_path settings s)
    as (n & evs & Hr & ->).
  destruct (get_refresh_time_pure (env_fs env) sd_path "refresh_time.txt"
              (Some settings)) as (n' & evs' & Hsp & Hr' & _).
  assert (Heq : Ok n (emits evs init) = Ok n' (emits evs' init))
    by (rewrite <- Hr, <- Hr'; reflexivity).
  injection Heq as -> ->.
  cbv zeta.
  destruct (running s) as [q|] eqn:Hq.
  - apply running_Some in Hq as [Hq Hlive].
    destruct (env_send_signal env) as [e1|].
    + intros [= <- <-]. sim. repeat (split; [reflexivity|]).
      eexists. split; [reflexivity|]. split; [reflexivity|].
      intros p Hp _. assert (p = q) as -> by congruence.
      exists e1. left. set_solver.
    + destruct (env_wait env) as [|e1|]; try discriminate.
      * destruct (env_popen env); [|discriminate].
        intros [= <- <-]. sim. repeat (split; [reflexivity|]).
        split; [set_solver|].
        eexists. split; [now rewrite <- app_assoc|]. split.
        -- rewrite !spawns_app, Hsp. reflexivity.
        -- intros p Hp Hin. assert (p = q) as -> by congruence. set_solver.
      * intros [= <- <-]. sim. repeat (split; [reflexivity|]).
        eexists. split; [reflexivity|]. split; [reflexivity|].
        intros p Hp _. assert (p = q) as -> by congruence.
        exists e1. right. set_solver.
  - destruct (env_popen env); [|discriminate].
    intros [= <- <-]. sim. repeat (split; [reflexivity|]).
    eexists. split; [reflexivity|]. split.
    + rewrite spawns_app, Hsp. reflexivity.
    + intros p Hp Hin.
      assert (running s = Some p) by (apply running_Some; auto). congruence.
Qed.

(** C7. Whenever [start_frame_manager] completes, it has computed the
    refresh time in that very call, from the settings and the card it was
    given and whatever the state and the earlier starts were, and it has
    spawned exactly one worker, with that refresh time on its command
    line; when [change_interval_minutes] is a positive integer the refresh
    time is that number times sixty. *)
Theorem start_frame_manager_refresh (env : Env) (sd_path : string)
    (settings : gmap string json) (s s' : State) :
  start_frame_manager env sd_path settings s = Ok tt s' ->
  exists n evs_r evs,
    (forall s0,
       get_refresh_time (env_fs env) sd_path "refresh_time.txt" (Some settings) s0
       = Ok n (emits evs_r s0))
    /\ out s' = (out s ++ evs)%list
    /\ spawns evs
       = [Popen (next_pid s)
            ["python3"; IMAGE_PROCESSING_SCRIPT; sd_path; str n]]
    /\ (forall m,
          settings !! "change_interval_minutes" = Some (JInt m) -> 0 < m ->
          n = m * 60).
Proof.
  intros Hs'.
  destruct (start_frame_manager_ok _ _ _ _ _ Hs')
    as (n & evs & Hr & Hsp & _ & _ & _ & _ & _ & _ & _ & Hout).
  exists n, evs. eexists. split; [exact Hr|]. split; [exact Hout|]. split.
  - rewrite !spawns_app, Hsp.
    destruct (running s); reflexivity.
  - intros m Hm Hpos.
    destruct (get_refresh_time_pure (env_fs env) sd_path "refresh_time.txt"
                (Some settings)) as (n' & evs' & _ & Hr' & Hint & _).
    assert (Heq : Ok n (emits evs init) = Ok n' (emits evs' init))
      by (rewrite <- Hr, <- Hr'; reflexivity).
    injection Heq as -> _. apply (Hint (JInt m) m); auto.
Qed.


Lemma running_None (s : State) :
  running s = None <-> forall p, process s = Some p -> p ∉ live s.
Proof.
  split.
  - intros Hn p Hp Hin.
    assert (running s = Some p) by (apply running_Some; auto). congruence.
  - intros Hall. destruct (running s) as [p|] eqn:Hp; [|reflexivity].
    apply running_Some in Hp as [Hp Hin]. now apply Hall in Hp.
Qed.

(** No worker starts to run unless it is spawned. *)
Lemma not_running_mono (s s' : State) :
  running s = None -> process s' = process s \/ process s' = None ->
  live s' ⊆ live s -> running s' = None.
Proof.
  intros Hn Hp Hl. apply running_None. intros p Hp' Hin.
  destruct Hp as [Hp|Hp]; [|congruence].
  rewrite Hp in Hp'. apply (proj1 (running_None s) Hn p Hp'). set_solver.
Qed.


(** An iteration inside quiet hours spawns nothing and leaves a stopped
    worker stopped. *)
Lemma tick_in_quiet (settings : gmap string json)
    (quiet_cfg : option (dtime * dtime)) (env : Env) (s s' : State) :
  in_quiet quiet_cfg env = true ->
  tick settings quiet_cfg env s = Ok tt s' ->
  (running s = None -> running s' = None)
  /\ exists evs, out s' = (out s ++ evs)%list /\ spawns evs = [].
Proof.
  intros Hq.
  destruct (env_listdir env) as [e|items] eqn:Hl.
  - rewrite (tick_listdir_error _ _ _ _ _ Hl). intros [= <-]. split.
    + intros Hn. apply (not_running_mono s); [assumption|now left|].
      sim. set_solver.
    + eexists. split; reflexivity.
  - destruct (valid_dirs items) as [|first rest] eqn:Hd.
    + rewrite (tick_absent _ _ _ _ _ Hl Hd).
      destruct (sd_inserted s).
      * intros Hs'. apply stop_frame_manager_ok in Hs'
          as (Hp & _ & _ & _ & _ & Hlive & evs & Ho & Hsp & _).
        split.
        -- intros _. apply running_None. intros p Hp'. congruence.
        -- revert Ho. sim. intros Ho. eexists. split.
           ++ rewrite Ho, <- app_assoc. reflexivity.
           ++ rewrite spawns_app, Hsp. reflexivity.
      * intros [= <-]. split.
        -- intros Hn. apply (not_running_mono s); [assumption|now left|].
           sim. set_solver.
        -- exists []. split; [now rewrite app_nil_r|reflexivity].
    + rewrite (tick_quiet _ _ _ _ _ _ _ Hl Hd Hq). cbv zeta.
      destruct (running (exited (env_exit_pre env) s)) as [p|] eqn:Hrun.
      * destruct (stop_frame_manager env "entering quiet hours" _)
          as [[] s2|e s2|] eqn:Hstop; [|intros _|discriminate].
        -- intros [= <-].
           apply stop_frame_manager_ok in Hstop
             as (Hp & _ & _ & _ & _ & Hlive & evs & Ho & Hsp & _).
           split.
           ++ intros _. apply running_None. sim. intros q Hq'. congruence.
           ++ exists evs. revert Ho. sim. auto.
        -- destruct (stop_never_raises env
                       "entering quiet hours"
                       (exited (env_exit_mid env) (exited (env_exit_pre env) s))
                       e s2 Hstop).
      * intros [= <-]. split.
        -- intros _. apply (not_running_mono (exited (env_exit_pre env) s));
             [assumption|now left|reflexivity].
        -- exists []. split; [now rewrite app_nil_r|reflexivity].
Qed.

Lemma ticks_in_quiet (settings : gmap string json)
    (quiet_cfg : option (dtime * dtime)) (envs : list Env) (s s' : State) :
  Forall (fun env => in_quiet quiet_cfg env = true) envs ->
  ticks settings quiet_cfg envs s = Ok tt s' ->
  (running s = None -> running s' = None)
  /\ exists evs, out s' = (out s ++ evs)%list /\ spawns evs = [].
Proof.
  intros Hall. revert s. induction Hall as [|env envs Hq _ IH]; intros s.
  - intros [= <-]. split; [auto|].
    exists []. split; [now rewrite app_nil_r|reflexivity].
  - cbn [ticks]. unfold mbind, M_bind, bind.
    destruct (tick settings quiet_cfg env s) as [[] s1|e s1|] eqn:Ht;
      try discriminate.
    intros Hrest.
    destruct (tick_in_quiet _ _ _ _ _ Hq Ht) as (Hr1 & evs1 & Ho1 & Hs1).
    destruct (IH _ Hrest) as (Hr2 & evs2 & Ho2 & Hs2).
    split; [auto|]. exists (evs1 ++ evs2)%list. split.
    + rewrite Ho2, Ho1, <- app_assoc. reflexivity.
    + rewrite spawns_app, Hs1, Hs2. reflexivity.
Qed.

(** C5. With a directory under the mount root and inside quiet hours:
    whenever the iteration completes (it does unless the wait never
    ends), the was-in-quiet flag and the inserted flag are set, no worker
    is running behind the handle and none was spawned; a worker that was
    running has had its handle cleared, was told that quiet hours are
    entered and was sent SIGTERM, and no longer runs unless stopping it
    failed. Over any further iterations that all fall inside quiet hours
    no worker is spawned and none runs behind the handle. *)
Theorem tick_quiet_hours (settings : gmap string json)
    (quiet_cfg : option (dtime * dtime)) (env : Env) (s : State)
    (items : list (string * bool)) (first : string) (rest : list string) :
  env_listdir env = inr items -> valid_dirs items = first :: rest ->
  in_quiet quiet_cfg env = true ->
  (forall s',
     tick settings quiet_cfg env s = Ok tt s' ->
     was_in_quiet s' = true
     /\ sd_inserted s' = true
     /\ running s' = None
     /\ (exists evs,
           out s' = (out s ++ evs)%list
           /\ spawns evs = []
           /\ forall p,
                running (exited (env_exit_pre env) s) = Some p ->
                process s' = None
                /\ (p ∈ live s' -> stop_failed p evs)
                /\ (p ∉ env_exit_mid env ->
                    exists r evs',
                      evs = Print "[sd_monitor] Stopping frame_manager process. Reason: entering quiet hours"
                              :: SendSignal p "SIGTERM" r :: evs'))
     /\ forall envs s'',
          Forall (fun env' => in_quiet quiet_cfg env' = true) envs ->
          ticks settings quiet_cfg envs s' = Ok tt s'' ->
          running s'' = None
          /\ exists evs, out s'' = (out s' ++ evs)%list /\ spawns evs = [])
  /\ (env_wait env <> WaitForever ->
      exists s', tick settings quiet_cfg env s = Ok tt s').
Proof.
  intros Hl Hd Hq.
  rewrite (tick_quiet _ _ _ _ _ _ _ Hl Hd Hq). cbv zeta.
  assert (Hlater : forall s', running s' = None ->
    forall envs s'',
      Forall (fun env' => in_quiet quiet_cfg env' = true) envs ->
      ticks settings quiet_cfg envs s' = Ok tt s'' ->
      running s'' = None
      /\ exists evs, out s'' = (out s' ++ evs)%list /\ spawns evs = []).
  { intros s' Hn envs s'' Hall Ht.
    destruct (ticks_in_quiet _ _ _ _ _ Hall Ht) as [Hr Hev]. auto. }
  destruct (running (exited (env_exit_pre env) s)) as [p|] eqn:Hrun.
  - split.
    + intros s'.
      destruct (stop_frame_manager env "entering quiet hours" _)
        as [[] s2|e s2|] eqn:Hstop; [|intros _|discriminate].
      * intros [= <-].
        apply stop_frame_manager_ok in Hstop
          as (Hp & _ & _ & _ & _ & Hlive & evs & Ho & Hsp & Hfail & Hmsg).
        assert (Hn : running (set_was_in_quiet true
                       (set_sd_was_removed false (set_sd_inserted true s2)))
                     = None).
        { apply running_None. sim. intros q Hq'. congruence. }
        split; [reflexivity|]. split; [reflexivity|]. split; [exact Hn|].
        split; [|now apply Hlater].
        exists evs. split; [exact Ho|]. split; [exact Hsp|].
        intros ? [= <-]. apply running_Some in Hrun as [Hproc Hin].
        split; [exact Hp|]. split.
        -- intros Hin'. apply (Hfail p); assumption.
        -- intros Hmid. apply (Hmsg p). apply running_Some.
           split; [exact Hproc|]. revert Hin. sim. set_solver.
      * now apply stop_never_raises in Hstop.
    + intros Hw.
      destruct (stop_frame_manager_returns env "entering quiet hours"
                  (exited (env_exit_mid env) (exited (env_exit_pre env) s)) Hw)
        as [s2 ->].
      eauto.
  - split; [|eauto]. intros s' [= <-].
    assert (Hn : running (set_was_in_quiet true
                   (set_sd_was_removed false
                      (set_sd_inserted true (exited (env_exit_pre env) s))))
                 = None).
    { apply (not_running_mono (exited (env_exit_pre env) s));
        [assumption|now left|reflexivity]. }
    split; [reflexivity|]. split; [reflexivity|]. split; [exact Hn|].
    split; [|now apply Hlater].
    exists []. split; [now rewrite app_nil_r|]. split; [reflexivity|].
    intros p [=].
Qed.












End WithInstall.

(* --------------------------------------------------------------------- *)
(** *** The properties at work on concrete runs                           *)
(* --------------------------------------------------------------------- *)

Lemma stop_frame_manager_clears_handle_witness :
  exists s',
    stop_frame_manager (unkillable noon card) "SD card removed" running_state
    = Ok tt s'
    /\ process s' = None
    /\ last (out s')
       = Some (PrintExn "[sd_monitor] Error stopping frame_manager: "
                 (OSError "Operation not permitted")).
Proof.
  apply (proj1 (proj2 (proj2 (stop_frame_manager_clears_handle
           (unkillable noon card) "SD card removed" running_state)))
           0%nat (OSError "Operation not permitted")).
  - vm_compute. reflexivity.
  - left. reflexivity.
Defined.

Lemma tick_listing_failure_witness :
  exists s',
    tick (H := pi) DEFAULT_SETTINGS None (calm noon no_root) running_state
    = Ok tt s'
    /\ process s' = Some 0%nat
    /\ sd_inserted s' = true
    /\ sd_was_removed s' = false.
Proof.
  destruct (tick_listing_failure (H := pi) DEFAULT_SETTINGS None
              (calm noon no_root) running_state
              (OSError "No such file or directory: '/media/pi'") eq_refl)
    as (s' & Ht & Hp & Hi & Hr & _).
  exists s'. repeat split; assumption.
Defined.

(** C2 as worded fails: with worker 0 running for an inserted card, an
    iteration in which listing the mount root raises leaves the handle on
    the running worker, the inserted flag set and the was-removed flag
    clear. *)
Lemma listing_failure_is_not_removal :
  ~ (forall (H : Install) settings quiet_cfg env s s' e,
       env_listdir env = inl e -> sd_inserted s = true ->
       tick settings quiet_cfg env s = Ok tt s' ->
       process s' = None /\ sd_was_removed s' = true
       /\ sd_inserted s' = false).
Proof.
  intros Hclaim.
  assert (Ht : tick (H := pi) DEFAULT_SETTINGS None (calm noon no_root)
                 running_state
               = Ok tt (final (tick (H := pi) DEFAULT_SETTINGS None
                                 (calm noon no_root) running_state)))
    by (vm_compute; reflexivity).
  destruct (Hclaim pi DEFAULT_SETTINGS None (calm noon no_root)
              running_state _
              (OSError "No such file or directory: '/media/pi'")
              eq_refl eq_refl Ht) as [Hp _].
  vm_compute in Hp. discriminate.
Qed.


Lemma tick_quiet_hours_witness :
  exists s',
    tick (H := pi) DEFAULT_SETTINGS overnight (calm late card) running_state
    = Ok tt s'.
Proof.
  destruct (tick_quiet_hours (H := pi) DEFAULT_SETTINGS overnight
              (calm late card) running_state [("SDCARD", true)] "SDCARD" [])
    as [_ Hreturns].
  - reflexivity.
  - reflexivity.
  - vm_compute. reflexivity.
  - apply Hreturns. discriminate.
Defined.


Lemma start_frame_manager_refresh_witness :
  exists n evs_r evs,
    (forall s0,
       get_refresh_time empty_card "/media/pi/SDCARD" "refresh_time.txt"
         (Some DEFAULT_SETTINGS) s0 = Ok n (emits evs_r s0))
    /\ out (final (start_frame_manager (H := pi) (calm noon card)
                     "/media/pi/SDCARD" DEFAULT_SETTINGS init))
       = ([] ++ evs)%list
    /\ spawns evs
       = [Popen 0 ["python3"; "/home/pi/frame_manager.py";
                   "/media/pi/SDCARD"; str n]]
    /\ (forall m,
          DEFAULT_SETTINGS !! "change_interval_minutes" = Some (JInt m) ->
          0 < m -> n = m * 60).
Proof.
  apply (start_frame_manager_refresh (H := pi) (calm noon card)
           "/media/pi/SDCARD" DEFAULT_SETTINGS init).
  vm_compute. reflexivity.
Defined.


(** The day ends with no worker running and the card marked removed. *)
Example a_day_ends_stopped :
  let s := final (ticks (H := pi) DEFAULT_SETTINGS overnight a_day init) in
  process s = None /\ live s = ∅ /\ sd_was_removed s = true
  /\ spawns (out s)
     = [Popen 0 ["python3"; "/home/pi/frame_manager.py"; "/media/pi/SDCARD";
                 "900"]].
Proof. vm_compute. repeat split. Qed.



(** When the worker cannot be spawned, the iteration prints the error and
    leaves handle and flags as they were, so that the next iteration tries
    again. *)
Example spawn_failure_is_logged :
  let s := final (tick (H := pi) DEFAULT_SETTINGS None (no_python noon card)
                    init) in
  process s = None /\ sd_inserted s = false /\ spawns (out s) = []
  /\ last (out s)
     = Some (PrintExn "[sd_monitor] Error monitoring SD card: "
               (OSError "No such file or directory: 'python3'")).
Proof. vm_compute. repeat split. Qed.

End MonitorFacts.

(* ===================================================================== *)
(** ** Numbers written out and read back                                  *)
(* ===================================================================== *)

Module ConversionFacts.
Import Py Claimed PyFacts.

Lemma pretty_N_char_digit (y : N) :
  (y < 10)%N -> digit_val (pretty_N_char y) = Some (Z.of_N y).
Proof.
  intros Hy.
  assert (y = 0 \/ y = 1 \/ y = 2 \/ y = 3 \/ y = 4 \/ y = 5 \/ y = 6
          \/ y = 7 \/ y = 8 \/ y = 9)%N as Hc by lia.
  repeat (destruct Hc as [->|Hc]; [reflexivity|]). now subst.
Qed.

Lemma pretty_N_go_all_digits (x : N) (s : string) :
  all_digits s = true -> all_digits (pretty_N_go x s) = true.
Proof.
  revert s. induction (N.lt_wf_0 x) as [x _ IH]. intros s Hs.
  destruct (decide (x = 0)%N) as [->|Hx]; [now rewrite pretty_N_go_0|].
  rewrite pretty_N_go_step by lia.
  apply IH; [apply N.div_lt; lia|].
  cbn [all_digits]. rewrite Hs, pretty_N_char_digit by (apply N.mod_lt; lia).
  reflexivity.
Qed.

Lemma pretty_N_go_nonempty (x : N) (s : string) :
  s <> EmptyString -> pretty_N_go x s <> EmptyString.
Proof.
  revert s. induction (N.lt_wf_0 x) as [x _ IH]. intros s Hs.
  destruct (decide (x = 0)%N) as [->|Hx]; [now rewrite pretty_N_go_0|].
  rewrite pretty_N_go_step by lia.
  apply IH; [apply N.div_lt; lia|discriminate].
Qed.

Lemma pretty_N_go_value (x : N) :
  exists k, 0 <= k /\ forall s acc,
    decimal_value_from acc (pretty_N_go x s)
    = decimal_value_from (acc * 10 ^ k + Z.of_N x) s.
Proof.
  induction (N.lt_wf_0 x) as [x _ IH].
  destruct (decide (x = 0)%N) as [->|Hx].
  - exists 0. split; [lia|]. intros s acc. rewrite pretty_N_go_0.
    f_equal. lia.
  - destruct (IH (x `div` 10)%N) as (k & Hk & Hv); [apply N.div_lt; lia|].
    exists (k + 1). split; [lia|]. intros s acc.
    rewrite pretty_N_go_step by lia. rewrite Hv.
    cbn [decimal_value_from].
    rewrite pretty_N_char_digit by (apply N.mod_lt; lia). cbn [default].
    f_equal. rewrite Z.pow_add_r, Z.pow_1_r by lia.
    rewrite N2Z.inj_div, N2Z.inj_mod.
    pose proof (Z.div_mod (Z.of_N x) 10 ltac:(lia)). change (Z.of_N 10) with 10.
    unfold id. lia.
Qed.

(** The decimal rendering of a positive number is a digit string that
    denotes it. *)
Lemma pretty_pos_digits (p : positive) :
  isdigit (pretty (Npos p)) = true
  /\ decimal_value (pretty (Npos p)) = Zpos p.
Proof.
  unfold pretty, pretty_N. rewrite decide_False by discriminate.
  rewrite pretty_N_go_step by lia.
  set (c := pretty_N_char _). set (y := (_ `div` _)%N).
  split.
  - assert (Hd : all_digits (pretty_N_go y (String c EmptyString)) = true).
    { apply pretty_N_go_all_digits. cbn [all_digits]. subst c.
      rewrite pretty_N_char_digit by (apply N.mod_lt; lia). reflexivity. }
    unfold isdigit.
    destruct (pretty_N_go y (String c EmptyString)) eqn:Hgo; [|exact Hd].
    now apply pretty_N_go_nonempty in Hgo.
  - subst c y. rewrite <- pretty_N_go_step by lia.
    destruct (pretty_N_go_value (Npos p)) as (k & _ & Hv).
    unfold decimal_value. rewrite Hv. cbn [decimal_value_from]. lia.
Qed.

Lemma rev_app_append (s1 s2 : string) :
  String.rev_app s1 s2 = String.rev s1 +:+ s2.
Proof.
  unfold String.rev. revert s2.
  induction s1 as [|a s1 IH]; intros s2; [reflexivity|].
  cbn [String.rev_app]. rewrite IH, (IH (String a EmptyString)).
  generalize (String.rev_app s1 EmptyString). intros t.
  induction t as [|b t IHt]; [reflexivity|].
  change (String b (t +:+ String a s2)
          = String b ((t +:+ String a EmptyString) +:+ s2)).
  now f_equal.
Qed.

(** Stripping leaves a string alone when it neither starts nor ends with
    a blank. *)
Lemma strip_unchanged (s : string) :
  lstrip s = s -> lstrip (String.rev s) = String.rev s -> strip s = s.
Proof.
  intros Hl Hr. unfold strip, rstrip. rewrite Hl, Hr. apply rev_involutive.
Qed.

Lemma lstrip_digits_append (d t : string) :
  d <> EmptyString -> all_digits d = true -> lstrip (d +:+ t) = d +:+ t.
Proof.
  destruct d as [|a d]; [contradiction|]. intros _ Hd.
  cbn [all_digits] in Hd. apply andb_true_iff in Hd as [Ha _].
  change (String a d +:+ t) with (String a (d +:+ t)). cbn [lstrip].
  now rewrite (digit_not_space a Ha).
Qed.

Lemma rev_nonempty (s : string) :
  s <> EmptyString -> String.rev s <> EmptyString.
Proof.
  destruct s as [|a s]; [contradiction|]. intros _. unfold String.rev.
  cbn [String.rev_app]. rewrite rev_app_append.
  destruct (String.rev s); discriminate.
Qed.

(** [int(str(n)) == n] *)
Lemma int_of_str_str (n : Z) : int_of_str (str n) = inr n.
Proof.
  unfold str, pretty, pretty_Z. destruct n as [|p|p].
  - reflexivity.
  - destruct (pretty_pos_digits p) as [Hd Hv].
    change (pretty p) with (pretty (Npos p)).
    rewrite (int_of_str_digits _ Hd), Hv. reflexivity.
  - destruct (pretty_pos_digits p) as [Hd Hv].
    change (pretty p) with (pretty (Npos p)).
    set (d := pretty (Npos p)) in *.
    assert (Hne : d <> EmptyString) by (intros Hd'; rewrite Hd' in Hd; discriminate).
    assert (Hall : all_digits d = true) by (destruct d; [discriminate|exact Hd]).
    unfold int_of_str.
    change ("-" +:+ d) with (String "-" d).
    rewrite strip_unchanged.
    + rewrite (parse_digits_all d 0 false Hall) by (now right).
      fold (decimal_value d). rewrite Hv. reflexivity.
    + reflexivity.
    + unfold String.rev. cbn [String.rev_app]. rewrite rev_app_append.
      apply lstrip_digits_append; [now apply rev_nonempty|].
      unfold String.rev. now apply all_digits_rev_app.
Qed.

End ConversionFacts.

Module LoopFacts.
Import Time Py Sup Claimed Observed Examples Runs Scenes PyFacts RefreshFacts
  MonitorFacts.

Section WithInstall.
Context `{Install}.

Lemma running_exited (X : gset nat) (s : State) :
  running s = None -> running (exited X s) = None.
Proof.
  intros Hn. apply (not_running_mono s); [assumption|now left|].
  cbn. set_solver.
Qed.

Lemma settled_frame (s s' : State) :
  settled s -> process s' = process s -> live s' ⊆ live s ->
  sd_inserted s' = sd_inserted s -> sd_was_removed s' = sd_was_removed s ->
  was_in_quiet s' = was_in_quiet s -> settled s'.
Proof.
  intros [Hrun Hrem] Hp Hl Hi Hr Hw. split.
  - rewrite Hi, Hr, Hw. intros Hc.
    apply (not_running_mono s); auto.
  - now rewrite Hi, Hr.
Qed.

Lemma settled_stopped (s : State) :
  process s = None -> (sd_was_removed s = true -> sd_inserted s = false) ->
  settled s.
Proof.
  intros Hp Hr. split; [|exact Hr].
  intros _. apply running_None. intros p Hp'. congruence.
Qed.

(** The answer of [need_start] and the line it prints. *)
Lemma need_start_line (s : State) :
  (need_start s = Ok false s
   /\ sd_inserted s = true /\ sd_was_removed s = false
   /\ is_Some (running s) /\ was_in_quiet s = false)
  \/ exists line,
       need_start s = Ok true (emit (Print line) s)
       /\ ((sd_inserted s = false
            /\ line = "[sd_monitor] SD card inserted. Starting frame_manager...")
           \/ (sd_inserted s = true /\ sd_was_removed s = true
               /\ line = reinserted_line)
           \/ (sd_inserted s = true /\ sd_was_removed s = false
               /\ running s = None
               /\ line = "[sd_monitor] frame_manager not running, starting...")
           \/ (sd_inserted s = true /\ sd_was_removed s = false
               /\ is_Some (running s) /\ was_in_quiet s = true
               /\ line = quiet_ended_line)).
Proof.
  unfold need_start. run.
  destruct (sd_inserted s) eqn:Hi; cbn [negb]; cbv beta iota.
  2: { right. eexists. split; [reflexivity|]. now left. }
  destruct (sd_was_removed s) eqn:Hr; cbv beta iota.
  { right. eexists. split; [reflexivity|]. right. left. auto. }
  rewrite running_process_eq.
  destruct (running s) as [p|] eqn:Hrun; cbv beta iota.
  2: { rewrite bool_decide_eq_false_2 by (intros [? ?]; discriminate).
       cbn [negb]. right. eexists. split; [reflexivity|].
       right. right. left. auto. }
  rewrite bool_decide_eq_true_2 by eauto. cbn [negb]. cbv beta iota.
  destruct (was_in_quiet s) eqn:Hw.
  - right. eexists. split; [reflexivity|]. right. right. right.
    repeat split; eauto.
  - left. repeat split; eauto.
Qed.

(** In a settled state [need_start] answers yes exactly when no worker
    runs, and it announces an insertion or a worker that is not running. *)
Lemma need_start_settled (s : State) :
  settled s ->
  (need_start s = Ok false s /\ is_Some (running s))
  \/ exists line,
       need_start s = Ok true (emit (Print line) s)
       /\ running s = None
       /\ (line = "[sd_monitor] SD card inserted. Starting frame_manager..."
           \/ line = "[sd_monitor] frame_manager not running, starting...").
Proof.
  intros [Hrun Hrem].
  destruct (need_start_line s) as [(Hn & _ & _ & Hr & _)|(line & Hn & Hc)];
    [now left|].
  right. exists line. split; [exact Hn|].
  destruct Hc as [[Hi ->]|[(Hi & Hr & _)|[(_ & _ & Hr & ->)|(_ & _ & Hr & Hw & _)]]].
  - split; [apply Hrun|]; auto.
  - apply Hrem in Hr. congruence.
  - auto.
  - rewrite Hrun in Hr by auto. destruct Hr; discriminate.
Qed.

Lemma start_frame_manager_not_hang (env : Env) (sd_path : string)
    (settings : gmap string json) (s : State) :
  env_wait env <> WaitForever ->
  start_frame_manager env sd_path settings s <> Hang.
Proof.
  intros Hw.
  destruct (start_frame_manager_outcome env sd_path settings s)
    as (n & evs & _ & ->).
  cbv zeta.
  destruct (running s); [|destruct (env_popen env); discriminate].
  destruct (env_send_signal env); [discriminate|].
  destruct (env_wait env); [|discriminate|contradiction].
  destruct (env_popen env); discriminate.
Qed.

Lemma tick_never_raises (settings : gmap string json)
    (quiet_cfg : option (dtime * dtime)) (env : Env) (s : State) :
  (forall e s', tick settings quiet_cfg env s <> Raise e s')
  /\ (env_wait env <> WaitForever ->
      exists s', tick settings quiet_cfg env s = Ok tt s').
Proof.
  destruct (env_listdir env) as [e|items] eqn:Hl.
  { rewrite (tick_listdir_error _ _ _ _ _ Hl). split; [discriminate|eauto]. }
  destruct (valid_dirs items) as [|first rest] eqn:Hd.
  { rewrite (tick_absent _ _ _ _ _ Hl Hd).
    destruct (sd_inserted s); [|split; [discriminate|eauto]].
    split.
    - intros e s' Hs'. now apply stop_never_raises in Hs'.
    - apply stop_frame_manager_returns. }
  destruct (in_quiet quiet_cfg env) eqn:Hq.
  - rewrite (tick_quiet _ _ _ _ _ _ _ Hl Hd Hq). cbv zeta.
    destruct (running _); [|split; [discriminate|eauto]].
    split.
    + intros e s'.
      destruct (stop_frame_manager env "entering quiet hours" _);
        discriminate.
    + intros Hw.
      destruct (stop_frame_manager_returns env "entering quiet hours"
                  (exited (env_exit_mid env) (exited (env_exit_pre env) s)) Hw)
        as [s2 ->].
      eauto.
  - rewrite (tick_active _ _ _ _ _ _ _ Hl Hd Hq).
    destruct (need_start_line (exited (env_exit_pre env) s))
      as [(-> & _)|(line & -> & _)]; [split; [discriminate|eauto]|].
    split.
    + intros e s'. destruct (start_frame_manager env _ settings _);
        discriminate.
    + intros Hw.
      pose proof (start_frame_manager_not_hang env
                    (path_join SD_MOUNT_BASE first) settings
                    (exited (env_exit_mid env)
                       (emit (Print line) (exited (env_exit_pre env) s))) Hw)
        as Hnh.
      destruct (start_frame_manager env _ settings _); eauto.
      contradiction.
Qed.

Lemma ticks_never_raise (settings : gmap string json)
    (quiet_cfg : option (dtime * dtime)) (envs : list Env) (s : State) :
  (forall e s', ticks settings quiet_cfg envs s <> Raise e s')
  /\ (Forall (fun env => env_wait env <> WaitForever) envs ->
      exists s', ticks settings quiet_cfg envs s = Ok tt s').
Proof.
  revert s. induction envs as [|env envs IH]; intros s.
  - split; [discriminate|eauto].
  - cbn [ticks]. unfold mbind, M_bind, bind.
    destruct (tick_never_raises settings quiet_cfg env s) as [Hnr Hret].
    destruct (tick settings quiet_cfg env s) as [[] s1|e s1|] eqn:Ht.
    + destruct (IH s1) as [Hnr' Hret']. split; [exact Hnr'|].
      intros Hall. apply Hret'. now inversion Hall.
    + now destruct (Hnr e s1).
    + split; [discriminate|].
      intros Hall. inversion Hall as [|? ? Hw _]; subst.
      destruct (Hret Hw) as [s' Hs']. discriminate.
Qed.

Lemma load_from_returns (fs : string -> settings_file) (paths : list string)
    (settings : gmap string json) (s : State) :
  exists r evs,
    load_from fs paths settings s = Ok r (emits evs s)
    /\ spawns evs = []
    /\ forall line, Print line ∈ evs ->
         exists path, line = "[sd_monitor] Loaded settings from " +:+ path.
Proof.
  revert s. induction paths as [|path rest IH]; intros s; cbn [load_from].
  - exists settings, []. rewrite emits_nil. repeat split.
    intros line Hin. now apply elem_of_nil in Hin.
  - destruct (fs path) as [|e|data].
    + apply IH.
    + unfold mbind, M_bind, bind, print_exn, modify.
      destruct (IH (emit (PrintExn ("[sd_monitor] Error reading settings from "
                                    +:+ path +:+ ": ") e) s))
        as (r & evs & -> & Hsp & Hlines).
      exists r. eexists. rewrite emit_emits, emits_emits.
      split; [reflexivity|]. split; [rewrite spawns_app, Hsp; reflexivity|].
      intros line Hin. apply elem_of_cons in Hin as [Hin|Hin];
        [discriminate|auto].
    + eexists. eexists. unfold mbind, M_bind, bind, print, modify, ret.
      rewrite emit_emits. split; [reflexivity|]. split; [reflexivity|].
      intros line Hin. apply list_elem_of_singleton in Hin.
      injection Hin as ->. eauto.
Qed.

Lemma monitor_loop_outcome (sfs : string -> settings_file)
    (locations : list string) (envs : list Env) (s : State) :
  (forall e s', monitor_sd_card sfs locations envs s <> Raise e s')
  /\ (Forall (fun env => env_wait env <> WaitForever) envs ->
      exists s', monitor_sd_card sfs locations envs s = Ok tt s').
Proof.
  unfold monitor_sd_card, load_settings.
  unfold mbind, M_bind, bind, modify.
  destruct (load_from_returns sfs locations DEFAULT_SETTINGS
              (set_sd_inserted false s)) as (r & evs & -> & _).
  cbv beta iota.
  destruct (parse_stop_rotation_between _); unfold print, modify;
    apply ticks_never_raise.
Qed.

(** X1. [monitor_sd_card] never raises, and it gets through every
    iteration unless a wait on a worker never ends: a failing listing,
    signal, wait or spawn does not end the loop. *)
Theorem monitor_sd_card_never_raises (sfs : string -> settings_file)
    (locations : list string) (envs : list Env) (s : State) :
  (forall e s', monitor_sd_card sfs locations envs s <> Raise e s')
  /\ (Forall (fun env => env_wait env <> WaitForever) envs ->
      exists s', monitor_sd_card sfs locations envs s = Ok tt s').
Proof. apply monitor_loop_outcome. Qed.

Lemma spawns_cons_print (line : string) (evs : list event) :
  spawns (Print line :: evs) = spawns evs.
Proof. reflexivity. Qed.

(** An iteration keeps flags and handle fitting together. *)
Lemma tick_settled (settings : gmap string json)
    (quiet_cfg : option (dtime * dtime)) (env : Env) (s s' : State) :
  settled s -> tick settings quiet_cfg env s = Ok tt s' -> settled s'.
Proof.
  intros Hs.
  assert (Hpre : settled (exited (env_exit_pre env) s)).
  { apply (settled_frame s); auto. cbn. set_solver. }
  destruct (env_listdir env) as [e|items] eqn:Hl.
  { rewrite (tick_listdir_error _ _ _ _ _ Hl). intros [= <-].
    apply (settled_frame (exited (env_exit_pre env) s)); auto. }
  destruct (valid_dirs items) as [|first rest] eqn:Hd.
  { rewrite (tick_absent _ _ _ _ _ Hl Hd).
    destruct (sd_inserted s); [|now intros [= <-]].
    intros Hstop. apply stop_frame_manager_ok in Hstop
      as (Hp & Hr & Hi & _).
    apply settled_stopped; [exact Hp|]. intros _. now rewrite Hi. }
  destruct (in_quiet quiet_cfg env) eqn:Hq.
  - rewrite (tick_quiet _ _ _ _ _ _ _ Hl Hd Hq). cbv zeta.
    destruct (running (exited (env_exit_pre env) s)) as [p|] eqn:Hrun.
    + destruct (stop_frame_manager env "entering quiet hours" _)
        as [[] s2|e s2|] eqn:Hstop; [|intros _|discriminate].
      * intros [= <-]. apply stop_frame_manager_ok in Hstop as (Hp & _).
        apply settled_stopped; [exact Hp|]. cbn. discriminate.
      * now apply stop_never_raises in Hstop.
    + intros [= <-]. split; [|cbn; discriminate].
      intros _. apply (not_running_mono (exited (env_exit_pre env) s));
        [assumption|now left|reflexivity].
  - rewrite (tick_active _ _ _ _ _ _ _ Hl Hd Hq).
    destruct (need_start_line (exited (env_exit_pre env) s))
      as [(-> & _)|(line & -> & _)]; [now intros [= <-]|].
    set (s2 := exited (env_exit_mid env) _).
    assert (Hs2 : settled s2).
    { apply (settled_frame (exited (env_exit_pre env) s)); auto.
      cbn. set_solver. }
    destruct (start_frame_manager env _ settings s2)
      as [[] s3|e s3|] eqn:Hstart; [| |discriminate].
    + intros [= <-]. split; cbn; [|discriminate].
      intros [?|[?|?]]; discriminate.
    + intros [= <-]. apply start_frame_manager_raise in Hstart
        as (Hp & Hr & Hi & Hw & _ & Hlive & _).
      apply (settled_frame s2); auto.
Qed.






Lemma interval_prints (o : option json) :
  exists r evs,
    (forall s,
       try_except
         (match o with
          | None | Some JNull => ret None
          | Some v =>
            minutes ← lift (int_of v);
            if 0 <? minutes then ret (Some (minutes * 60)) else ret None
          end)
         (fun e =>
            print_exn "[sd_monitor] Invalid change_interval_minutes in settings: " e;;
            ret None) s = Ok r (emits evs s))
    /\ forall line, Print line ∉ evs.
Proof.
  assert (Hgen : forall v, exists r evs,
    (forall s,
       try_except
         (minutes ← lift (int_of v);
          if 0 <? minutes then ret (Some (minutes * 60)) else ret None)
         (fun e =>
            print_exn "[sd_monitor] Invalid change_interval_minutes in settings: " e;;
            ret None) s = Ok r (emits evs s))
    /\ forall line, Print line ∉ evs).
  { intros v. run. destruct (int_of v) as [e|m].
    - exists None,
        [PrintExn "[sd_monitor] Invalid change_interval_minutes in settings: " e].
      split; [reflexivity|]. intros line Hin.
      apply list_elem_of_singleton in Hin. discriminate.
    - destruct (0 <? m); eexists; exists [];
        (split; [intros s; now rewrite emits_nil|]);
        intros line Hin; now apply elem_of_nil in Hin. }
  destruct o as [v|].
  - destruct v; try apply Hgen.
    exists None, []. split; [intros s; now rewrite emits_nil|].
    intros line Hin. now apply elem_of_nil in Hin.
  - exists None, []. split; [intros s; now rewrite emits_nil|].
    intros line Hin. now apply elem_of_nil in Hin.
Qed.

Lemma fallback_prints (fs : string -> file_state)
    (sd_path filename : string) :
  exists n evs,
    (forall s,
       match fs (path_join sd_path filename) with
       | FMissing =>
         print ("[sd_monitor] " +:+ filename +:+ " not found, defaulting to 600");;
         ret 600
       | FUnreadable e =>
         print_exn ("[sd_monitor] Error reading " +:+ filename +:+ ": ") e;;
         ret 600
       | FContent text =>
         try_except
           (let number := strip text in
            if isdigit number
            then lift (int_of_str number)
            else
              print ("[sd_monitor] Invalid number in " +:+ filename +:+ ", defaulting to 600");;
              ret 600)
           (fun e =>
              print_exn ("[sd_monitor] Error reading " +:+ filename +:+ ": ") e;;
              ret 600)
       end s = Ok n (emits evs s))
    /\ forall line, Print line ∈ evs ->
         line = "[sd_monitor] " +:+ filename +:+ " not found, defaulting to 600"
         \/ line = "[sd_monitor] Invalid number in " +:+ filename +:+ ", defaulting to 600".
Proof.
  run. destruct (fs (path_join sd_path filename)) as [|e|text].
  - eexists. eexists [_]. split; [intros s; reflexivity|].
    intros line Hin. apply list_elem_of_singleton in Hin.
    injection Hin as ->. now left.
  - eexists. eexists [_]. split; [intros s; reflexivity|].
    intros line Hin. apply list_elem_of_singleton in Hin. discriminate.
  - cbv zeta. destruct (isdigit (strip text)) eqn:Hd.
    + rewrite (int_of_str_digits _ Hd). eexists. exists [].
      split; [intros s; now rewrite emits_nil|].
      intros line Hin. now apply elem_of_nil in Hin.
    + eexists. eexists [_]. split; [intros s; reflexivity|].
      intros line Hin. apply list_elem_of_singleton in Hin.
      injection Hin as ->. now right.
Qed.

(** The lines [get_refresh_time] can print. *)
Lemma get_refresh_time_prints (fs : string -> file_state)
    (sd_path filename : string) (settings : option (gmap string json)) :
  exists n evs,
    (forall s,
       get_refresh_time fs sd_path filename settings s = Ok n (emits evs s))
    /\ forall line, Print line ∈ evs ->
         line = "[sd_monitor] " +:+ filename +:+ " not found, defaulting to 600"
         \/ line = "[sd_monitor] Invalid number in " +:+ filename +:+ ", defaulting to 600".
Proof.
  unfold get_refresh_time.
  set (o := default DEFAULT_SETTINGS settings !! "change_interval_minutes").
  clearbody o.
  destruct (interval_prints o) as (r & evs0 & Hr & Hno).
  destruct r as [seconds|].
  - exists seconds, evs0. split.
    + intros s. now rewrite (bind_Ok _ _ _ _ _ (Hr s)).
    + intros line Hin. now apply Hno in Hin.
  - destruct (fallback_prints fs sd_path filename) as (n & evs & Hf & Hlines).
    exists n, (evs0 ++ evs)%list. split.
    + intros s. rewrite (bind_Ok _ _ _ _ _ (Hr s)).
      rewrite <- emits_emits. apply Hf.
    + intros line Hin. apply elem_of_app in Hin as [Hin|Hin]; [|auto].
      now apply Hno in Hin.
Qed.

Lemma unannounced_nil : unannounced [].
Proof. intros line _ Hin. now apply elem_of_nil in Hin. Qed.

Lemma unannounced_app (evs1 evs2 : list event) :
  unannounced evs1 -> unannounced evs2 -> unannounced (evs1 ++ evs2).
Proof.
  intros H1 H2 line Hl Hin. apply elem_of_app in Hin as [Hin|Hin].
  - now apply (H1 line Hl).
  - now apply (H2 line Hl).
Qed.

Lemma unannounced_cons (ev : event) (evs : list event) :
  (forall line, line ∈ restart_lines -> ev <> Print line) ->
  unannounced evs -> unannounced (ev :: evs).
Proof.
  intros Hev Hevs line Hl Hin. apply elem_of_cons in Hin as [Hin|Hin].
  - now apply (Hev line Hl).
  - now apply (Hevs line Hl).
Qed.

Ltac not_restart_line :=
  let line := fresh "line" in
  let Hl := fresh "Hl" in
  let Heq := fresh "Heq" in
  intros line Hl; unfold restart_lines in Hl;
  repeat (apply elem_of_cons in Hl as [->|Hl]);
  [..|now apply elem_of_nil in Hl];
  try discriminate;
  intros Heq; injection Heq as Heq; revert Heq;
  unfold reinserted_line, quiet_ended_line, stopping_existing_line,
    stop_message, starting_message;
  cbv [String.append]; try discriminate.

Lemma stop_frame_manager_unannounced (env : Env) (reason : string)
    (s s' : State) :
  reason = "SD card removed" \/ reason = "entering quiet hours" ->
  stop_frame_manager env reason s = Ok tt s' ->
  exists evs, out s' = (out s ++ evs)%list /\ unannounced evs.
Proof.
  intros Hreason. rewrite stop_frame_manager_outcome.
  assert (Hmsg : forall line, line ∈ restart_lines ->
                   Print (stop_message reason) <> Print line).
  { destruct Hreason as [->| ->]; not_restart_line. }
  assert (Hsig : forall r line, line ∈ restart_lines ->
                   SendSignal 0 "SIGTERM" r <> Print line)
    by (intros; discriminate).
  destruct (running s) as [p|].
  - destruct (env_send_signal env) as [e|].
    + intros [= <-]. eexists. split; [reflexivity|].
      repeat (apply unannounced_cons; [try exact Hmsg; intros; discriminate|]).
      apply unannounced_nil.
    + destruct (env_wait env) as [|e|]; try discriminate; intros [= <-];
        (eexists; split; [reflexivity|]);
        repeat (apply unannounced_cons;
                [try exact Hmsg; intros; discriminate|]);
        apply unannounced_nil.
  - intros [= <-]. exists []. split; [cbn; now rewrite app_nil_r|].
    apply unannounced_nil.
Qed.

Lemma refresh_unannounced (fs : string -> file_state) (sd_path : string)
    (settings : option (gmap string json)) (n : Z) (evs : list event) :
  (forall s, get_refresh_time fs sd_path "refresh_time.txt" settings s
             = Ok n (emits evs s)) ->
  unannounced evs.
Proof.
  intros Hr.
  destruct (get_refresh_time_prints fs sd_path "refresh_time.txt" settings)
    as (n' & evs' & Hr' & Hlines).
  assert (Heq : Ok n (emits evs init) = Ok n' (emits evs' init))
    by (rewrite <- Hr, <- Hr'; reflexivity).
  injection Heq as -> ->.
  intros line Hl Hin. apply Hlines in Hin. revert line Hl Hin.
  intros line Hl. unfold restart_lines in Hl.
  repeat (apply elem_of_cons in Hl as [->|Hl]);
    [..|now apply elem_of_nil in Hl];
    unfold reinserted_line, quiet_ended_line, stopping_existing_line;
    cbv [String.append]; intros [?|?]; discriminate.
Qed.

(** When no worker runs, [start_frame_manager] prints none of the three
    lines, whether it completes or raises. *)
Lemma start_frame_manager_unannounced (env : Env) (sd_path : string)
    (settings : gmap string json) (s : State) :
  running s = None ->
  match start_frame_manager env sd_path settings s with
  | Ok _ s' | Raise _ s' =>
    exists evs, out s' = (out s ++ evs)%list /\ unannounced evs
  | Hang => True
  end.
Proof.
  intros Hrun.
  destruct (start_frame_manager_outcome env sd_path settings s)
    as (n & evs & Hr & ->).
  cbv zeta. rewrite Hrun.
  pose proof (refresh_unannounced _ _ _ _ _ Hr) as Hevs.
  destruct (env_popen env) as [e|].
  - eexists. split; [reflexivity|].
    apply unannounced_app; [exact Hevs|].
    apply unannounced_cons; [not_restart_line|apply unannounced_nil].
  - eexists. split; [reflexivity|].
    apply unannounced_app; [exact Hevs|]. unfold spawn_events.
    repeat (apply unannounced_cons; [not_restart_line|]).
    apply unannounced_nil.
Qed.

(** From a settled state an iteration prints none of the three lines. *)
Lemma tick_unannounced (settings : gmap string json)
    (quiet_cfg : option (dtime * dtime)) (env : Env) (s s' : State) :
  settled s -> tick settings quiet_cfg env s = Ok tt s' ->
  exists evs, out s' = (out s ++ evs)%list /\ unannounced evs.
Proof.
  intros Hs.
  assert (Hpre : settled (exited (env_exit_pre env) s)).
  { apply (settled_frame s); auto. cbn. set_solver. }
  destruct (env_listdir env) as [e|items] eqn:Hl.
  { rewrite (tick_listdir_error _ _ _ _ _ Hl). intros [= <-].
    eexists. split; [reflexivity|].
    apply unannounced_cons; [intros; discriminate|apply unannounced_nil]. }
  destruct (valid_dirs items) as [|first rest] eqn:Hd.
  { rewrite (tick_absent _ _ _ _ _ Hl Hd).
    destruct (sd_inserted s).
    - intros Hstop.
      apply stop_frame_manager_unannounced in Hstop as (evs & Ho & Hevs);
        [|now left].
      exists (Print "[sd_monitor] SD card removed." :: evs). split.
      + rewrite Ho. cbn. now rewrite <- app_assoc.
      + apply unannounced_cons; [not_restart_line|exact Hevs].
    - intros [= <-]. exists []. split; [cbn; now rewrite app_nil_r|].
      apply unannounced_nil. }
  destruct (in_quiet quiet_cfg env) eqn:Hq.
  - rewrite (tick_quiet _ _ _ _ _ _ _ Hl Hd Hq). cbv zeta.
    destruct (running (exited (env_exit_pre env) s)) as [p|].
    + destruct (stop_frame_manager env "entering quiet hours" _)
        as [[] s2|e s2|] eqn:Hstop; [|intros _|discriminate].
      * intros [= <-].
        apply stop_frame_manager_unannounced in Hstop as (evs & Ho & Hevs);
          [|now right].
        exists evs. split; [exact Ho|exact Hevs].
      * now apply stop_never_raises in Hstop.
    + intros [= <-]. exists []. split; [cbn; now rewrite app_nil_r|].
      apply unannounced_nil.
  - rewrite (tick_active _ _ _ _ _ _ _ Hl Hd Hq).
    destruct (need_start_settled _ Hpre) as [[-> _]|(line & -> & Hrun & Hline)].
    + intros [= <-]. exists []. split; [cbn; now rewrite app_nil_r|].
      apply unannounced_nil.
    + set (s2 := exited (env_exit_mid env) _).
      assert (Hrun2 : running s2 = None).
      { apply (not_running_mono (exited (env_exit_pre env) s));
          [assumption|now left|cbn; set_solver]. }
      pose proof (start_frame_manager_unannounced env
                    (path_join SD_MOUNT_BASE first) settings s2 Hrun2) as Hst.
      assert (Hfirst : forall l, l ∈ restart_lines -> Print line <> Print l).
      { destruct Hline as [->| ->]; not_restart_line. }
      destruct (start_frame_manager env _ settings s2)
        as [[] s3|e s3|]; [| |discriminate].
      * intros [= <-]. destruct Hst as (evs & Ho & Hevs).
        exists (Print line :: evs). split.
        -- cbn. rewrite Ho. cbn. now rewrite <- app_assoc.
        -- apply unannounced_cons; assumption.
      * intros [= <-]. destruct Hst as (evs & Ho & Hevs).
        exists (Print line :: evs ++
                  [PrintExn "[sd_monitor] Error monitoring SD card: " e])%list.
        split.
        -- cbn. rewrite Ho. cbn. now rewrite <- !app_assoc.
        -- apply unannounced_cons; [assumption|].
           apply unannounced_app; [assumption|].
           apply unannounced_cons; [intros; discriminate|].
           apply unannounced_nil.
Qed.

Lemma ticks_unannounced (settings : gmap string json)
    (quiet_cfg : option (dtime * dtime)) (envs : list Env) (s s' : State) :
  settled s -> ticks settings quiet_cfg envs s = Ok tt s' ->
  exists evs, out s' = (out s ++ evs)%list /\ unannounced evs.
Proof.
  revert s. induction envs as [|env envs IH]; intros s Hs.
  - intros [= <-]. exists []. split; [now rewrite app_nil_r|].
    apply unannounced_nil.
  - cbn [ticks]. unfold mbind, M_bind, bind.
    destruct (tick settings quiet_cfg env s) as [[] s1|e s1|] eqn:Ht;
      try discriminate.
    intros Hrest.
    destruct (tick_unannounced _ _ _ _ _ Hs Ht) as (evs1 & Ho1 & H1).
    destruct (IH s1 (tick_settled _ _ _ _ _ Hs Ht) Hrest)
      as (evs2 & Ho2 & H2).
    exists (evs1 ++ evs2)%list. split.
    + rewrite Ho2, Ho1. now rewrite <- app_assoc.
    + now apply unannounced_app.
Qed.

(** X2. A run of [monitor_sd_card] that gets through its iterations,
    however many and whatever the outside world answers, has printed none
    of the lines "SD card reinserted. Restarting frame_manager...", "Quiet
    hours ended, restarting frame_manager..." and "Stopping existing
    frame_manager process...": a worker is never running when a start is
    called for, so a restart is always announced as an insertion or as a
    worker that is not running, and [start_frame_manager] never has a
    worker to stop. *)
Theorem restart_lines_never_printed (sfs : string -> settings_file)
    (locations : list string) (envs : list Env) (s' : State) :
  monitor_sd_card sfs locations envs init = Ok tt s' ->
  forall line, line ∈ restart_lines -> Print line ∉ out s'.
Proof.
  unfold monitor_sd_card, load_settings.
  unfold mbind, M_bind, bind, modify.
  destruct (load_from_returns sfs locations DEFAULT_SETTINGS
              (set_sd_inserted false init)) as (r & evs & -> & _ & Hlines).
  cbv beta iota.
  assert (Hload : unannounced evs).
  { intros line Hl Hin. apply Hlines in Hin as [path Hpath].
    revert line Hl Hpath. not_restart_line. }
  destruct (parse_stop_rotation_between _) as [parsed|];
    unfold print, modify; cbv beta iota; intros Ht;
    match type of Ht with
    | ticks _ _ _ ?s1 = _ =>
      assert (Hs1 : settled s1)
        by (apply settled_stopped; [reflexivity|discriminate]);
      destruct (ticks_unannounced _ _ _ _ _ Hs1 Ht) as (evs2 & Ho2 & H2)
    end;
    rewrite Ho2; sim;
    (apply unannounced_app; [|exact H2]);
    (apply unannounced_app; [exact Hload|]);
    (apply unannounced_cons; [|apply unannounced_nil]).
  - intros; discriminate.
  - not_restart_line.
Qed.





(** X5. Whatever the outside world answers and whatever the state, one
    iteration spawns at most one worker, and none when the card is not
    there, when it is quiet hours or when the mount root cannot be
    listed. *)
Theorem tick_spawns_only_when_wanted (settings : gmap string json)
    (quiet_cfg : option (dtime * dtime)) (env : Env) (s s' : State) :
  tick settings quiet_cfg env s = Ok tt s' ->
  exists evs,
    out s' = (out s ++ evs)%list
    /\ (length (spawns evs) <= 1)%nat
    /\ (wanted quiet_cfg env = false -> spawns evs = []).
Proof.
  unfold wanted.
  destruct (env_listdir env) as [e|items] eqn:Hl.
  { rewrite (tick_listdir_error _ _ _ _ _ Hl). intros [= <-].
    eexists. split; [reflexivity|]. cbn. split; [lia|reflexivity]. }
  destruct (valid_dirs items) as [|first rest] eqn:Hd.
  { rewrite (tick_absent _ _ _ _ _ Hl Hd).
    destruct (sd_inserted s).
    - intros Hstop. apply stop_frame_manager_ok in Hstop
        as (_ & _ & _ & _ & _ & _ & evs & Ho & Hsp & _).
      exists (Print "[sd_monitor] SD card removed." :: evs). split.
      + rewrite Ho. cbn. now rewrite <- app_assoc.
      + rewrite spawns_cons_print, Hsp. cbn. split; [lia|reflexivity].
    - intros [= <-]. exists []. split; [cbn; now rewrite app_nil_r|].
      cbn. split; [lia|reflexivity]. }
  destruct (in_quiet quiet_cfg env) eqn:Hq; cbn [negb].
  - rewrite (tick_quiet _ _ _ _ _ _ _ Hl Hd Hq). cbv zeta.
    destruct (running (exited (env_exit_pre env) s)) as [p|].
    + destruct (stop_frame_manager env "entering quiet hours" _)
        as [[] s2|e s2|] eqn:Hstop; [|intros _|discriminate].
      * intros [= <-]. apply stop_frame_manager_ok in Hstop
          as (_ & _ & _ & _ & _ & _ & evs & Ho & Hsp & _).
        exists evs. split; [exact Ho|]. rewrite Hsp. cbn.
        split; [lia|reflexivity].
      * now apply stop_never_raises in Hstop.
    + intros [= <-]. exists []. split; [cbn; now rewrite app_nil_r|].
      cbn. split; [lia|reflexivity].
  - rewrite (tick_active _ _ _ _ _ _ _ Hl Hd Hq).
    destruct (need_start_line (exited (env_exit_pre env) s))
      as [(-> & _)|(line & -> & _)].
    + intros [= <-]. exists []. split; [cbn; now rewrite app_nil_r|].
      cbn. split; [lia|discriminate].
    + set (s2 := exited (env_exit_mid env) _).
      destruct (start_frame_manager env _ settings s2)
        as [[] s3|e s3|] eqn:Hstart; [| |discriminate].
      * intros [= <-].
        destruct (start_frame_manager_ok _ _ _ _ _ Hstart)
          as (n & evs & _ & Hsp & _ & _ & _ & _ & _ & _ & _ & Hout).
        eexists (Print line :: _). split.
        -- cbn. rewrite Hout. cbn. rewrite <- app_assoc. reflexivity.
        -- rewrite spawns_cons_print, !spawns_app, Hsp.
           split; [|discriminate].
           destruct (running s2); cbn; lia.
      * intros [= <-]. apply start_frame_manager_raise in Hstart
          as (_ & _ & _ & _ & _ & _ & evs & Ho & Hsp & _).
        exists (Print line :: evs ++
                  [PrintExn "[sd_monitor] Error monitoring SD card: " e])%list.
        split.
        -- cbn. rewrite Ho. cbn. now rewrite <- !app_assoc.
        -- rewrite spawns_cons_print, spawns_app, Hsp. cbn.
           split; [lia|discriminate].
Qed.

End WithInstall.

(* --------------------------------------------------------------------- *)
(** *** The properties at work on a day of the frame                      *)
(* --------------------------------------------------------------------- *)



Lemma monitor_sd_card_never_raises_witness :
  exists s',
    monitor_sd_card (H := pi) no_settings locations a_day init = Ok tt s'.
Proof.
  apply (proj2 (monitor_sd_card_never_raises (H := pi) no_settings locations
                  a_day init)).
  repeat constructor; discriminate.
Defined.

Lemma restart_lines_never_printed_witness :
  Forall (fun line =>
            Print line
            ∉ out (final (monitor_sd_card (H := pi) no_settings locations
                            a_day init)))
    restart_lines.
Proof.
  apply Forall_forall.
  apply (restart_lines_never_printed (H := pi) no_settings locations a_day).
  vm_compute. reflexivity.
Defined.



Lemma tick_spawns_only_when_wanted_witness :
  exists evs,
    out (final (tick (H := pi) DEFAULT_SETTINGS overnight (calm late card)
                  running_state))
    = (out running_state ++ evs)%list
    /\ (length (spawns evs) <= 1)%nat
    /\ (wanted overnight (calm late card) = false -> spawns evs = []).
Proof.
  apply (tick_spawns_only_when_wanted (H := pi) DEFAULT_SETTINGS overnight
           (calm late card) running_state).
  vm_compute. reflexivity.
Defined.

End LoopFacts.

(* ===================================================================== *)
(** ** The loop at rest                                                   *)
(* ===================================================================== *)

Module SteadyFacts.
Import Time Py Sup Claimed Observed Examples Runs PyFacts RefreshFacts
  MonitorFacts LoopFacts.



Section WithInstall.
Context `{Install}.


End WithInstall.


End SteadyFacts.

(* ===================================================================== *)
(** ** Quiet hours: more on the window                                    *)
(* ===================================================================== *)

Module WindowFacts.
Import Time TimeFacts.

Lemma dtime_ge_negb_lt (a b : dtime) : dtime_ge a b = negb (dtime_lt a b).
Proof. unfold dtime_ge, dtime_lt. now destruct (dtime_cmp a b). Qed.

Lemma dtime_le_negb_lt (a b : dtime) : dtime_le a b = negb (dtime_lt b a).
Proof. rewrite <- dtime_ge_le. apply dtime_ge_negb_lt. Qed.

(** Two times neither of which is before the other are the same time. *)
Lemma dtime_lt_total (a b : dtime) :
  dtime_lt a b = false -> dtime_lt b a = false -> a = b.
Proof.
  intros Hab Hba.
  destruct (before_or_not_after a b) as [Hlt | [Hlt | Heq]].
  - apply dtime_lt_before in Hlt. congruence.
  - apply dtime_lt_before in Hlt. congruence.
  - now symmetry.
Qed.

Lemma dtime_lt_asym (a b : dtime) :
  dtime_lt a b = true -> dtime_lt b a = false.
Proof.
  intros Hab. destruct (dtime_lt b a) eqn:Hba; [|reflexivity].
  apply dtime_lt_before in Hab, Hba. unfold before in *. lia.
Qed.

(** X6. For two different times, the window from [morning] to [evening]
    is the complement of the window from [evening] to [morning]: at every
    moment exactly one of the two is quiet. *)
Theorem in_quiet_hours_swap (now : datetime) (evening morning : dtime) :
  evening <> morning ->
  in_quiet_hours now morning evening = negb (in_quiet_hours now evening morning).
Proof.
  intros Hne. unfold in_quiet_hours.
  destruct (dtime_lt evening morning) eqn:Hem.
  - rewrite (dtime_lt_asym _ _ Hem).
    rewrite dtime_ge_negb_lt, dtime_le_negb_lt.
    now destruct (dtime_lt (time_of now) evening),
                 (dtime_lt (time_of now) morning).
  - destruct (dtime_lt morning evening) eqn:Hme.
    + rewrite dtime_ge_negb_lt, dtime_le_negb_lt.
      now destruct (dtime_lt (time_of now) evening),
                   (dtime_lt (time_of now) morning).
    + exfalso. apply Hne. now apply dtime_lt_total.
Qed.

Lemma in_quiet_hours_swap_witness :
  in_quiet_hours (at_time (hhmm 12 0)) (hhmm 7 0) (hhmm 22 0)
  = negb (in_quiet_hours (at_time (hhmm 12 0)) (hhmm 22 0) (hhmm 7 0)).
Proof.
  apply (in_quiet_hours_swap (at_time (hhmm 12 0)) (hhmm 22 0) (hhmm 7 0)).
  discriminate.
Defined.

End WindowFacts.

(* ===================================================================== *)
(** ** Settings: which location wins                                      *)
(* ===================================================================== *)

Module LoadFacts.
Import Py Sup Claimed Observed Runs Scenes SettingsFacts RefreshFacts.

(** The locations before the first one that parses only add their error
    lines. *)
Lemma load_from_unparsed (fs : string -> settings_file)
    (pre rest : list string) (settings : gmap string json) (s : State) :
  Forall (unparsed fs) pre ->
  load_from fs (pre ++ rest) settings s
  = load_from fs rest settings (emits (error_lines fs pre) s).
Proof.
  revert s. induction pre as [|path pre IH]; intros s Hpre.
  - cbn [app error_lines omap]. now rewrite emits_nil.
  - apply Forall_cons in Hpre as [Hpath Hpre].
    cbn [app load_from]. unfold error_lines. cbn [omap list_omap].
    fold (error_lines fs pre).
    destruct (fs path) as [|e|data] eqn:Hfs.
    + apply IH, Hpre.
    + unfold mbind, M_bind, bind, print_exn, modify.
      rewrite (IH _ Hpre). rewrite emit_emits, emits_emits. reflexivity.
    + now destruct (Hpath data).
Qed.

(** X7. The first location that exists and parses decides the settings:
    the locations after it are not consulted, the ones before it that
    exist and do not parse leave one error line each, and the result is
    the merge of that one document into the defaults. *)
Theorem load_settings_first_parsed (fs : string -> settings_file)
    (pre post : list string) (path : string) (data : json) (s : State) :
  Forall (unparsed fs) pre ->
  fs path = SParsed data ->
  load_settings fs (pre ++ path :: post) s
  = Ok (merge_into DEFAULT_SETTINGS data)
       (emits (error_lines fs pre
               ++ [Print ("[sd_monitor] Loaded settings from " +:+ path)]) s).
Proof.
  intros Hpre Hpath. unfold load_settings.
  rewrite (load_from_unparsed _ _ _ _ _ Hpre).
  cbn [load_from]. rewrite Hpath.
  unfold mbind, M_bind, bind, print, modify, mret, M_ret, ret.
  now rewrite emit_emits, emits_emits.
Qed.

(** X8. When no location holds a document that parses, [load_settings]
    returns the defaults unchanged, having printed one error line for
    each location that exists and does not parse, and nothing else. *)
Theorem load_settings_none_parsed (fs : string -> settings_file)
    (paths : list string) (s : State) :
  Forall (unparsed fs) paths ->
  load_settings fs paths s
  = Ok DEFAULT_SETTINGS (emits (error_lines fs paths) s).
Proof.
  intros Hpaths. unfold load_settings.
  rewrite <- (app_nil_r paths) at 1.
  now rewrite (load_from_unparsed _ _ _ _ _ Hpaths).
Qed.


(** The loop of [frame_manager.py] returns what the loop of
    [sd_monitor.py] returns. *)
Lemma load_from_agree (fs : string -> settings_file) (paths : list string)
    (settings : gmap string json) (s : State) :
  exists s',
    load_from fs paths settings s
    = Ok (FrameManager.load_from fs paths settings).1 s'.
Proof.
  revert s. induction paths as [|path rest IH]; intros s.
  - exists s. reflexivity.
  - cbn [load_from FrameManager.load_from].
    destruct (fs path) as [|e|data].
    + apply IH.
    + unfold mbind, M_bind, bind, print_exn, modify.
      destruct (IH (emit (PrintExn ("[sd_monitor] Error reading settings from "
                                    +:+ path +:+ ": ") e) s)) as [s' Hs'].
      exists s'. rewrite Hs'.
      now destruct (FrameManager.load_from fs rest settings).
    + eexists. reflexivity.
Qed.

(** X10. Given the same files at the same locations, the worker resolves
    the settings the monitor resolves: [load_settings] of
    [frame_manager.py] and [load_settings] of [sd_monitor.py] return the
    same dictionary. *)
Theorem worker_settings_agree (fs : string -> settings_file)
    (locations : list string) (s : State) :
  exists s',
    load_settings fs locations s
    = Ok (FrameManager.load_settings fs locations).1 s'.
Proof. apply load_from_agree. Qed.


(* --------------------------------------------------------------------- *)
(** *** The properties at work on concrete files                          *)
(* --------------------------------------------------------------------- *)

Lemma load_settings_first_parsed_witness :
  load_settings some_settings ([etc_settings] ++ home_settings :: [script_settings])
    init
  = Ok (merge_into DEFAULT_SETTINGS five_minutes)
       (emits (error_lines some_settings [etc_settings]
               ++ [Print ("[sd_monitor] Loaded settings from "
                          +:+ home_settings)]) init).
Proof.
  apply (load_settings_first_parsed some_settings [etc_settings]
           [script_settings] home_settings five_minutes init).
  - repeat constructor. intros data. vm_compute. discriminate.
  - vm_compute. reflexivity.
Defined.

Lemma load_settings_none_parsed_witness :
  load_settings garbled_settings locations init
  = Ok DEFAULT_SETTINGS (emits (error_lines garbled_settings locations) init).
Proof.
  apply (load_settings_none_parsed garbled_settings locations init).
  repeat constructor; intros data; vm_compute; discriminate.
Defined.

End LoadFacts.

(* ===================================================================== *)
(** ** Quiet hours: reading the window from the settings                  *)
(* ===================================================================== *)

Module HoursFacts.
Import Time Py Sup Claimed Observed Runs Scenes PyFacts ConversionFacts.

Lemma append_assoc (s1 s2 s3 : string) :
  (s1 +:+ s2) +:+ s3 = s1 +:+ (s2 +:+ s3).
Proof.
  induction s1 as [|a s1 IH]; [reflexivity|].
  change (String a ((s1 +:+ s2) +:+ s3) = String a (s1 +:+ (s2 +:+ s3))).
  now f_equal.
Qed.

Lemma rev_String (a : ascii) (s : string) :
  String.rev (String a s) = String.rev s +:+ String a EmptyString.
Proof. unfold String.rev. cbn [String.rev_app]. apply rev_app_append. Qed.

(** Splitting a text without a colon gives the text. *)
Lemma split_colon_free (s cur : string) :
  colon_free s = true -> split_colon cur s = [String.rev cur +:+ s].
Proof.
  revert cur. induction s as [|a s IH]; intros cur Hs.
  - cbn [split_colon]. now rewrite append_empty_r.
  - cbn [colon_free] in Hs. apply andb_true_iff in Hs as [Ha Hs].
    cbn [split_colon]. destruct (bool_decide (a = ":"%char)); [discriminate|].
    rewrite (IH _ Hs), rev_String, append_assoc. reflexivity.
Qed.

(** Splitting up to the first colon. *)
Lemma split_colon_first (s rest cur : string) :
  colon_free s = true ->
  split_colon cur (s +:+ String ":" rest)
  = (String.rev cur +:+ s) :: split_colon EmptyString rest.
Proof.
  revert cur. induction s as [|a s IH]; intros cur Hs.
  - change (EmptyString +:+ String ":" rest) with (String ":" rest).
    cbn [split_colon]. rewrite bool_decide_eq_true_2 by reflexivity.
    now rewrite append_empty_r.
  - cbn [colon_free] in Hs. apply andb_true_iff in Hs as [Ha Hs].
    change (String a s +:+ String ":" rest)
      with (String a (s +:+ String ":" rest)).
    cbn [split_colon]. destruct (bool_decide (a = ":"%char)); [discriminate|].
    rewrite (IH _ Hs), rev_String, append_assoc. reflexivity.
Qed.

Lemma parse_hhmm_two_parts (p0 p1 : string) :
  colon_free p0 = true -> colon_free p1 = true ->
  parse_hhmm (JStr (p0 +:+ ":" +:+ p1)) = of_parts p0 p1.
Proof.
  intros H0 H1. unfold parse_hhmm.
  change (p0 +:+ ":" +:+ p1) with (p0 +:+ String ":" p1).
  rewrite (split_colon_first _ _ _ H0), (split_colon_free _ _ H1).
  reflexivity.
Qed.

(** X11. [parse_hhmm] reads the first two parts only: whatever follows a
    second colon (seconds, or anything else) is ignored. *)
Theorem parse_hhmm_ignores_rest (p0 p1 rest : string) :
  colon_free p0 = true -> colon_free p1 = true ->
  parse_hhmm (JStr (p0 +:+ ":" +:+ p1 +:+ ":" +:+ rest))
  = parse_hhmm (JStr (p0 +:+ ":" +:+ p1)).
Proof.
  intros H0 H1. rewrite (parse_hhmm_two_parts _ _ H0 H1). unfold parse_hhmm.
  change (p0 +:+ ":" +:+ p1 +:+ ":" +:+ rest)
    with (p0 +:+ String ":" (p1 +:+ String ":" rest)).
  rewrite (split_colon_first _ _ _ H0), (split_colon_first _ _ _ H1).
  reflexivity.
Qed.

(** The sixty two-digit numbers. *)
Lemma two_digits_checked :
  forallb (fun n =>
             colon_free (two_digits n)
             && match int_of_str (two_digits n) with
                | inr k => k =? n
                | inl _ => false
                end) (seqZ 0 60) = true.
Proof. vm_compute. reflexivity. Qed.

Lemma two_digits_int (n : Z) :
  0 <= n <= 59 ->
  colon_free (two_digits n) = true /\ int_of_str (two_digits n) = inr n.
Proof.
  intros Hn. pose proof two_digits_checked as Hall.
  rewrite forallb_forall in Hall.
  specialize (Hall n). rewrite <- list_elem_of_In, elem_of_seqZ in Hall.
  specialize (Hall ltac:(lia)).
  apply andb_true_iff in Hall as [Hfree Hint]. split; [exact Hfree|].
  destruct (int_of_str (two_digits n)) as [e|k]; [discriminate|].
  apply Z.eqb_eq in Hint. now subst.
Qed.

(** X12. The times [parse_hhmm] can return are the 1440 minutes of the
    day: a valid hour and minute written ["HH:MM"] parses to that time,
    and whatever parses is such a time, with no seconds. *)
Theorem parse_hhmm_minutes :
  (forall h m, minute_of_day h m ->
     parse_hhmm (JStr (hh_mm h m)) = Some (hhmm h m))
  /\ (forall value t, parse_hhmm value = Some t ->
     exists h m, minute_of_day h m /\ t = hhmm h m).
Proof.
  split.
  - intros h m [Hh Hm].
    destruct (two_digits_int h ltac:(lia)) as [Hfh Hih].
    destruct (two_digits_int m Hm) as [Hfm Him].
    unfold hh_mm. rewrite (parse_hhmm_two_parts _ _ Hfh Hfm).
    unfold of_parts. rewrite Hih, Him.
    replace (0 <=? h) with true by (symmetry; apply Z.leb_le; lia).
    replace (h <=? 23) with true by (symmetry; apply Z.leb_le; lia).
    replace (0 <=? m) with true by (symmetry; apply Z.leb_le; lia).
    replace (m <=? 59) with true by (symmetry; apply Z.leb_le; lia).
    reflexivity.
  - intros value t Ht. unfold parse_hhmm in Ht.
    destruct value as [| | | |text| |]; try discriminate.
    destruct (split_colon EmptyString text) as [|p0 [|p1 parts]];
      try discriminate.
    destruct (int_of_str p0) as [|h]; [discriminate|].
    destruct (int_of_str p1) as [|m]; [discriminate|].
    destruct ((0 <=? h) && (h <=? 23) && (0 <=? m) && (m <=? 59)) eqn:Hr;
      [|discriminate].
    injection Ht as <-. exists h, m. split; [|reflexivity].
    repeat (apply andb_true_iff in Hr as [Hr ?]).
    unfold minute_of_day. lia.
Qed.

(** What parses as a time is a text that is not empty. *)
Lemma parse_hhmm_truthy (value : json) (t : dtime) :
  parse_hhmm value = Some t -> truthy value = true.
Proof.
  destruct value as [| | | |text| |]; try discriminate.
  destruct text; [discriminate|reflexivity].
Qed.

(** X13. A quiet window is configured exactly when the setting is an
    object whose ["evening"] and ["morning"] both parse as times; the
    window is then those two times, in that order. Any other setting
    (none, not an object, a key missing, a time that does not parse)
    leaves the quiet hours off. *)
Theorem parse_stop_rotation_between_iff (cfg : option json)
    (evening morning : dtime) :
  parse_stop_rotation_between cfg = Some (evening, morning)
  <-> exists d evening_str morning_str,
        cfg = Some (JDict d)
        /\ d !! "evening" = Some evening_str
        /\ d !! "morning" = Some morning_str
        /\ parse_hhmm evening_str = Some evening
        /\ parse_hhmm morning_str = Some morning.
Proof.
  split.
  - unfold parse_stop_rotation_between.
    destruct cfg as [[| | | | | |d]|]; try discriminate.
    destruct (bool_decide (d = ∅)); [discriminate|].
    destruct (d !! "evening") as [ve|] eqn:He; [|discriminate].
    destruct (d !! "morning") as [vm|] eqn:Hm; [|discriminate].
    destruct (truthy ve && truthy vm); [|discriminate].
    destruct (parse_hhmm ve) as [e|] eqn:Hpe; [|discriminate].
    destruct (parse_hhmm vm) as [m|] eqn:Hpm; [|discriminate].
    intros Heq. injection Heq as <- <-.
    exists d, ve, vm. auto.
  - intros (d & ve & vm & -> & He & Hm & Hpe & Hpm).
    unfold parse_stop_rotation_between.
    rewrite bool_decide_eq_false_2.
    + rewrite He, Hm, (parse_hhmm_truthy _ _ Hpe), (parse_hhmm_truthy _ _ Hpm).
      cbn [andb]. now rewrite Hpe, Hpm.
    + intros ->. now rewrite lookup_empty in He.
Qed.


(* --------------------------------------------------------------------- *)
(** *** The properties at work on concrete settings                       *)
(* --------------------------------------------------------------------- *)

Lemma parse_hhmm_ignores_rest_witness :
  parse_hhmm (JStr ("22" +:+ ":" +:+ "30" +:+ ":" +:+ "15"))
  = parse_hhmm (JStr ("22" +:+ ":" +:+ "30")).
Proof.
  apply (parse_hhmm_ignores_rest "22" "30" "15"); reflexivity.
Defined.

Lemma parse_hhmm_minutes_witness :
  parse_hhmm (JStr (hh_mm 7 5)) = Some (hhmm 7 5).
Proof.
  apply (proj1 parse_hhmm_minutes 7 5). unfold minute_of_day. lia.
Defined.

Lemma parse_stop_rotation_between_iff_witness :
  parse_stop_rotation_between (Some nightly) = Some (hhmm 22 0, hhmm 7 0).
Proof.
  apply (proj2 (parse_stop_rotation_between_iff (Some nightly)
                  (hhmm 22 0) (hhmm 7 0))).
  exists {["evening" := JStr "22:00"; "morning" := JStr "07:00"]},
    (JStr "22:00"), (JStr "07:00").
  repeat split; vm_compute; reflexivity.
Defined.

End HoursFacts.

(* ===================================================================== *)
(** ** The refresh time, from the monitor to the worker                   *)
(* ===================================================================== *)

Module WorkerFacts.
Import Time Py Sup Claimed Observed Examples Runs PyFacts ConversionFacts
  RefreshFacts MonitorFacts.

Lemma file_refresh_time_nonneg (fs : string -> file_state)
    (sd_path filename : string) :
  0 <= file_refresh_time fs sd_path filename.
Proof.
  unfold file_refresh_time.
  destruct (fs (path_join sd_path filename)) as [| |text]; try lia.
  destruct (isdigit (strip text)); [|lia].
  apply decimal_value_from_nonneg. lia.
Qed.

(** The result is positive when it comes from the settings, and the
    fallback value otherwise. *)
Lemma get_refresh_time_sign (fs : string -> file_state)
    (sd_path filename : string) (settings : option (gmap string json)) :
  exists n evs,
    (forall s, get_refresh_time fs sd_path filename settings s
               = Ok n (emits evs s))
    /\ (0 < n \/ n = file_refresh_time fs sd_path filename).
Proof.
  destruct (get_refresh_time_pure fs sd_path filename settings)
    as (n & evs & _ & Hr & Hpos & Hneg).
  exists n, evs. split; [exact Hr|].
  destruct (default DEFAULT_SETTINGS settings !! "change_interval_minutes")
    as [v|] eqn:Hv.
  - destruct (int_of v) as [e|m] eqn:Hm.
    + right. apply Hneg. intros v' m' Hv' Hm'. congruence.
    + destruct (decide (0 < m)) as [Hlt|Hle].
      * left. rewrite (Hpos v m eq_refl Hm Hlt). lia.
      * right. apply Hneg. intros v' m' Hv' Hm'.
        assert (m' = m) by congruence. lia.
  - right. apply Hneg. intros v' m' Hv'. discriminate.
Qed.

(** X14. [get_refresh_time] never returns a negative number, and it
    returns zero only when [refresh_time.txt] holds a digit string that
    denotes zero: the settings alone cannot ask for a refresh time of
    zero seconds. *)
Theorem get_refresh_time_nonneg (fs : string -> file_state)
    (sd_path filename : string) (settings : option (gmap string json))
    (s : State) :
  exists n s',
    get_refresh_time fs sd_path filename settings s = Ok n s'
    /\ 0 <= n
    /\ (n = 0 ->
        exists text,
          fs (path_join sd_path filename) = FContent text
          /\ isdigit (strip text) = true
          /\ decimal_value (strip text) = 0).
Proof.
  destruct (get_refresh_time_sign fs sd_path filename settings)
    as (n & evs & Hr & Hn).
  exists n, (emits evs s). split; [apply Hr|].
  pose proof (file_refresh_time_nonneg fs sd_path filename) as Hf.
  split; [lia|].
  intros Hz. destruct Hn as [Hn|Hn]; [lia|].
  rewrite Hz in Hn. unfold file_refresh_time in Hn.
  destruct (fs (path_join sd_path filename)) as [| |text]; try discriminate.
  destruct (isdigit (strip text)) eqn:Hd; [|discriminate].
  exists text. auto.
Qed.

Section WithInstall.
Context `{Install}.

(** X15. The worker reads back what the monitor computed: whenever
    [start_frame_manager] completes, the [__main__] block of
    [frame_manager.py], run on the command line that was spawned, gets
    past its argument checks with the card's path and with the very
    number [get_refresh_time] returned. *)
Theorem worker_reads_refresh_time (env : Env) (sd_path : string)
    (settings : gmap string json) (s s' : State) :
  start_frame_manager env sd_path settings s = Ok tt s' ->
  exists n args,
    (forall s0, exists s1,
       get_refresh_time (env_fs env) sd_path "refresh_time.txt"
         (Some settings) s0 = Ok n s1)
    /\ Popen (next_pid s) args ∈ out s'
    /\ FrameManager.parse_argv (FrameManager.sys_argv args)
       = FrameManager.Started sd_path n.
Proof.
  intros Hs'.
  destruct (start_frame_manager_ok _ _ _ _ _ Hs')
    as (n & evs & Hr & _ & _ & _ & _ & _ & _ & _ & _ & Hout).
  exists n, (worker_args sd_path n). split; [|split].
  - intros s0. eexists. apply Hr.
  - rewrite Hout. unfold spawn_events. set_solver.
  - unfold worker_args, FrameManager.sys_argv, FrameManager.parse_argv.
    cbn [tail]. now rewrite int_of_str_str.
Qed.

End WithInstall.


Lemma worker_reads_refresh_time_witness :
  exists n args,
    (forall s0, exists s1,
       get_refresh_time empty_card "/media/pi/SDCARD" "refresh_time.txt"
         (Some DEFAULT_SETTINGS) s0 = Ok n s1)
    /\ Popen 0 args
       ∈ out (final (start_frame_manager (H := pi) (calm noon card)
                       "/media/pi/SDCARD" DEFAULT_SETTINGS init))
    /\ FrameManager.parse_argv (FrameManager.sys_argv args)
       = FrameManager.Started "/media/pi/SDCARD" n.
Proof.
  apply (worker_reads_refresh_time (H := pi) (calm noon card)
           "/media/pi/SDCARD" DEFAULT_SETTINGS init).
  vm_compute. reflexivity.
Defined.

End WorkerFacts.

(* ===================================================================== *)
(** ** Startup: stale mounts, then the loop                               *)
(* ===================================================================== *)

Module StartupFacts.
Import Time Py Sup Claimed Observed Examples Runs Scenes Startup LoopFacts.

Section WithInstall.
Context `{Install}.

(** X16. [cleanup_stale_mounts] runs [sudo rm -r] on exactly the entries
    of the mount root that are directories it cannot read or enter, each
    once and in the order of the listing, whether or not the removals
    before succeeded; files and accessible directories are left alone. *)
Theorem cleanup_removes_stale (run : list string -> option run_error)
    (folders : list mount) :
  commands (cleanup_loop run folders)
  = (fun folder =>
       ["sudo"; "rm"; "-r"; path_join SD_MOUNT_BASE (m_name folder)])
    <$> List.filter stale folders.
Proof.
  induction folders as [|folder rest IH]; [reflexivity|].
  cbn [cleanup_loop List.filter]. unfold stale at 1.
  destruct (m_isdir folder); cbn [negb andb]; [|exact IH].
  destruct (m_access folder); cbn [negb]; [exact IH|].
  cbn [fmap list_fmap]. unfold commands. cbn [omap list_omap].
  fold (commands (cleanup_loop run rest)).
  destruct (run _) as [[c|e]|]; cbn [omap list_omap];
    fold (commands (cleanup_loop run rest)); now rewrite IH.
Qed.

(** X17. The program dies of an exception in one case only: the listing
    of the mount root in [cleanup_stale_mounts] fails. Then the loop is
    never entered and nothing is printed; once the loop is entered no
    exception leaves it. *)
Theorem main_raises_iff (listing : exn + list mount)
    (run : list string -> option run_error)
    (sfs : string -> settings_file) (locations : list string)
    (envs : list Env) (e : exn) (s : State) :
  (main listing run sfs locations envs).2 = Raise e s
  <-> listing = inl e /\ s = init.
Proof.
  unfold main, cleanup_stale_mounts. destruct listing as [e'|folders].
  - cbn [snd]. split.
    + intros Heq. injection Heq as -> <-. auto.
    + intros [Heq ->]. injection Heq as ->. reflexivity.
  - cbn [snd]. split.
    + intros Hr.
      now destruct (proj1 (monitor_loop_outcome sfs locations envs init)
                      e s).
    + intros [Heq _]. discriminate.
Qed.

End WithInstall.


Lemma main_raises_iff_witness :
  (main (H := pi) (inl (OSError "No such file or directory: '/media/pi'"))
     rm_refused no_settings locations a_day).2
  = Raise (OSError "No such file or directory: '/media/pi'") init.
Proof.
  apply (proj2 (main_raises_iff (H := pi)
                  (inl (OSError "No such file or directory: '/media/pi'"))
                  rm_refused no_settings locations a_day
                  (OSError "No such file or directory: '/media/pi'") init)).
  split; reflexivity.
Defined.

(** On the mount root of [Scenes.mounts] only the stale mount point is
    removed, and the refusal is printed. *)
Example cleanup_of_mounts :
  cleanup_stale_mounts (H := pi) (inr mounts) rm_refused
  = inr [Say ("[sd_monitor] Stale or inaccessible mount detected: "
              +:+ "/media/pi/OLDCARD" +:+ ", attempting to remove...");
         Run ["sudo"; "rm"; "-r"; "/media/pi/OLDCARD"];
         SayError ("[sd_monitor] Failed to remove " +:+ "/media/pi/OLDCARD"
                   +:+ " (subprocess error): ") (CalledProcessError 1)].
Proof. reflexivity. Qed.

End StartupFacts.

(* ===================================================================== *)
(** ** The bucket manager                                                 *)
(* ===================================================================== *)

Module S3Facts.
Import S3 Bucket Scenes PyFacts ConversionFacts HoursFacts.

Lemma rev_append (s1 s2 : string) :
  String.rev (s1 +:+ s2) = String.rev s2 +:+ String.rev s1.
Proof.
  induction s1 as [|a s1 IH].
  - change (EmptyString +:+ s2) with s2. change (String.rev EmptyString)
      with EmptyString. now rewrite append_empty_r.
  - change (String a s1 +:+ s2) with (String a (s1 +:+ s2)).
    rewrite !rev_String, IH, append_assoc. reflexivity.
Qed.


Lemma drop_chars_append (p s : string) :
  drop_chars (String.length p) (p +:+ s) = s.
Proof.
  induction p as [|a p IH].
  - change (EmptyString +:+ s) with s. cbn [String.length drop_chars].
    now destruct s.
  - change (String a p +:+ s) with (String a (p +:+ s)).
    cbn [String.length drop_chars]. exact IH.
Qed.

Lemma startswith_drop (key p : string) :
  startswith key p = true -> p +:+ drop_chars (String.length p) key = key.
Proof.
  revert key. induction p as [|b p IH]; intros key Hk.
  - cbn [String.length drop_chars]. now destruct key.
  - destruct key as [|a key]; [discriminate|].
    cbn [startswith] in Hk. apply andb_true_iff in Hk as [Hab Hk].
    apply bool_decide_eq_true in Hab as ->.
    cbn [String.length drop_chars].
    change (String b p +:+ drop_chars (String.length p) key)
      with (String b (p +:+ drop_chars (String.length p) key)).
    now rewrite (IH _ Hk).
Qed.

Lemma rel_key_halves (self : S3Manager) :
  (forall rel, rel_key self (prefix self +:+ rel) = rel)
  /\ (forall key, startswith key (prefix self) = true ->
        prefix self +:+ rel_key self key = key).
Proof.
  unfold rel_key. split.
  - intros rel. destruct (bool_decide_reflect (prefix self = EmptyString))
      as [->|_]; [reflexivity|apply drop_chars_append].
  - intros key Hk. destruct (bool_decide_reflect (prefix self = EmptyString))
      as [->|_]; [reflexivity|now apply startswith_drop].
Qed.


Lemma lstrip_slash_first (s : string) : slash_first (lstrip_slash s) = false.
Proof.
  induction s as [|a s IH]; [reflexivity|].
  cbn [lstrip_slash]. destruct (bool_decide (a = "/"%char)) eqn:Ha;
    [exact IH|]. cbn [slash_first]. exact Ha.
Qed.

Lemma lstrip_slash_id (s : string) :
  slash_first s = false -> lstrip_slash s = s.
Proof.
  destruct s as [|a s]; [reflexivity|].
  cbn [slash_first lstrip_slash]. now intros ->.
Qed.

(** What [lstrip] leaves is the end of the string. *)
Lemma lstrip_slash_suffix (s : string) :
  exists t, s = t +:+ lstrip_slash s.
Proof.
  induction s as [|a s [t IH]]; [now exists EmptyString|].
  cbn [lstrip_slash]. destruct (bool_decide (a = "/"%char)).
  - exists (String a t). change (String a t +:+ lstrip_slash s)
      with (String a (t +:+ lstrip_slash s)). now f_equal.
  - now exists EmptyString.
Qed.

(** What [strip] leaves neither starts nor ends with a slash. *)
Lemma strip_slash_ends (s : string) :
  slash_first (strip_slash s) = false /\ slash_last (strip_slash s) = false.
Proof.
  unfold strip_slash. set (t := lstrip_slash s).
  assert (Ht : slash_first t = false) by apply lstrip_slash_first.
  set (u := lstrip_slash (String.rev t)).
  assert (Hu : slash_first u = false) by apply lstrip_slash_first.
  split.
  - destruct (lstrip_slash_suffix (String.rev t)) as [v Hv]. fold u in Hv.
    apply (f_equal String.rev) in Hv.
    rewrite rev_involutive, rev_append in Hv.
    destruct (String.rev u) as [|a q]; [reflexivity|].
    rewrite Hv in Ht. exact Ht.
  - unfold slash_last. rewrite rev_involutive.
    destruct u; [reflexivity|exact Hu].
Qed.

Lemma strip_slash_normal (q : string) :
  q <> EmptyString -> slash_first q = false -> slash_last q = false ->
  strip_slash (q +:+ "/") = q.
Proof.
  intros Hne Hf Hl. unfold strip_slash.
  rewrite (lstrip_slash_id (q +:+ "/")).
  - rewrite rev_append.
    change (String.rev "/" +:+ String.rev q) with (String "/" (String.rev q)).
    cbn [lstrip_slash]. rewrite bool_decide_eq_true_2 by reflexivity.
    rewrite lstrip_slash_id; [apply rev_involutive|].
    unfold slash_last in Hl. destruct (String.rev q); [reflexivity|exact Hl].
  - destruct q as [|a q]; [contradiction|exact Hf].
Qed.

(** X18. The prefix of a manager is normal whatever was passed: it is
    empty, or it is a path that neither starts nor ends with a slash
    followed by a single slash; and passing a normal prefix again gives
    the same manager. *)
Theorem new_prefix_normal (bucket_name prefix : string) :
  slash_first (S3.prefix (new bucket_name prefix)) = false
  /\ (S3.prefix (new bucket_name prefix) = EmptyString
      \/ exists q, S3.prefix (new bucket_name prefix) = q +:+ "/"
                   /\ q <> EmptyString /\ slash_last q = false)
  /\ new bucket_name (S3.prefix (new bucket_name prefix))
     = new bucket_name prefix.
Proof.
  unfold new. cbn [S3.prefix].
  destruct (strip_slash_ends prefix) as [Hf Hl].
  set (q := strip_slash prefix) in *.
  destruct (bool_decide_reflect (q = EmptyString)) as [->|Hne].
  - split; [reflexivity|]. split; [now left|]. reflexivity.
  - split; [|split].
    + destruct q as [|a q']; [contradiction|exact Hf].
    + right. exists q. auto.
    + rewrite (strip_slash_normal q Hne Hf Hl).
      now rewrite bool_decide_eq_false_2.
Qed.



Lemma uploaded_app (calls1 calls2 : list call) :
  uploaded (calls1 ++ calls2) = (uploaded calls1 ++ uploaded calls2)%list.
Proof. apply List.filter_app. Qed.

Lemma deleted_app (calls1 calls2 : list call) :
  deleted (calls1 ++ calls2) = (deleted calls1 ++ deleted calls2)%list.
Proof. apply omap_app. Qed.

(** One file: the upload is made exactly when it is wanted. *)
Lemma upload_one_calls (c : client) (self : S3Manager)
    (overwrite_existing : bool) (path : entry) :
  deleted (upload_one c self overwrite_existing path).1 = []
  /\ uploaded (upload_one c self overwrite_existing path).1
     = if overwrite_existing || missing c self path
       then [upload_of self path] else [].
Proof.
  unfold upload_one, missing, upload_of.
  destruct overwrite_existing; cbn [negb orb]; [split; reflexivity|].
  destruct (answer c (head_object _ _)) as [[p|p|code|d]|];
    try (split; reflexivity).
  destruct (bool_decide_reflect (code = "404")) as [->|Hne].
  - rewrite bool_decide_eq_false_2 by (intros Hc; now apply Hc).
    split; reflexivity.
  - rewrite bool_decide_eq_true_2 by assumption. split; reflexivity.
Qed.

Lemma upload_all_spec (c : client) (self : S3Manager)
    (overwrite_existing : bool) (paths : list entry) (local_files : gset string)
    (calls : list call) (r : error + gset string) :
  upload_all c self overwrite_existing paths local_files = (calls, r) ->
  deleted calls = []
  /\ uploaded calls `prefix_of` to_upload c self overwrite_existing paths
  /\ (forall local_files', r = inr local_files' ->
        uploaded calls = to_upload c self overwrite_existing paths
        /\ local_files'
           = local_files ∪ list_to_set (e_rel <$> files paths)).
Proof.
  revert local_files calls r.
  induction paths as [|path rest IH]; intros local_files calls r.
  - cbn [upload_all]. intros Heq. injection Heq as <- <-.
    split; [reflexivity|]. split; [reflexivity|].
    intros lf' Heq. injection Heq as <-. split; [reflexivity|].
    unfold files. cbn [List.filter fmap list_fmap list_to_set]. set_solver.
  - cbn [upload_all]. unfold to_upload, files. cbn [List.filter].
    destruct (e_is_file path) eqn:Hf; cbn [negb].
    + destruct (upload_one_calls c self overwrite_existing path)
        as [Hdel Hup].
      destruct (upload_one c self overwrite_existing path)
        as [calls1 [e|]] eqn:Hone; cbn [fst] in Hdel, Hup.
      * intros Heq. injection Heq as <- <-.
        split; [exact Hdel|]. split; [|discriminate].
        rewrite Hup. cbn [List.filter].
        destruct (overwrite_existing || missing c self path);
          [|apply prefix_nil].
        cbn [fmap list_fmap]. apply prefix_cons, prefix_nil.
      * destruct (upload_all c self overwrite_existing rest
                    (local_files ∪ {[e_rel path]})) as [calls2 r2] eqn:Hall.
        destruct (IH _ _ _ Hall) as (Hdel2 & Hpre & Hok).
        intros Heq. injection Heq as <- <-.
        rewrite deleted_app, uploaded_app, Hdel, Hdel2, Hup.
        split; [reflexivity|].
        cbn [List.filter].
        assert (Hsplit :
          upload_of self
          <$> (if overwrite_existing || missing c self path
               then path :: List.filter
                              (fun p => overwrite_existing || missing c self p)
                              (List.filter e_is_file rest)
               else List.filter
                      (fun p => overwrite_existing || missing c self p)
                      (List.filter e_is_file rest))
          = ((if overwrite_existing || missing c self path
              then [upload_of self path] else [])
             ++ to_upload c self overwrite_existing rest)%list).
        { now destruct (overwrite_existing || missing c self path). }
        rewrite Hsplit. split; [now apply prefix_app|].
        intros lf' ->. destruct (Hok lf' eq_refl) as [-> ->].
        split; [reflexivity|].
        cbn [fmap list_fmap list_to_set].
        fold (files rest). set_solver.
    + intros Hall. destruct (IH _ _ _ Hall) as (Hdel2 & Hpre & Hok).
      split; [exact Hdel2|]. split; [exact Hpre|]. exact Hok.
Qed.

Lemma delete_all_spec (c : client) (self : S3Manager)
    (todo : list (list string)) (calls : list call) (r : option error) :
  delete_all c self todo = (calls, r) ->
  uploaded calls = []
  /\ deleted calls `prefix_of` todo
  /\ (r = None -> deleted calls = todo).
Proof.
  revert calls r. induction todo as [|chunk rest IH]; intros calls r.
  - cbn [delete_all]. intros Heq. injection Heq as <- <-. auto.
  - cbn [delete_all]. destruct (answer c _) as [e|].
    + intros Heq. injection Heq as <- <-.
      split; [reflexivity|]. split; [|discriminate].
      apply prefix_cons, prefix_nil.
    + destruct (delete_all c self rest) as [calls2 r2] eqn:Hall.
      destruct (IH _ _ eq_refl) as (Hup & Hpre & Hok).
      intros Heq. injection Heq as <- <-.
      split; [exact Hup|]. split.
      * unfold deleted. cbn [omap list_omap]. now apply prefix_cons.
      * intros ->. unfold deleted. cbn [omap list_omap].
        fold (deleted calls2). now rewrite (Hok eq_refl).
Qed.

Lemma keys_to_delete_spec (self : S3Manager) (rglob : list entry)
    (listing : list (error + list string)) (keys : list string) :
  keys_to_delete self (∅ ∪ list_to_set (e_rel <$> files rglob)) listing
  = inr keys ->
  keys = List.filter (extraneous self rglob) (listed_keys listing).
Proof.
  revert keys. induction listing as [|[e|contents] rest IH]; intros keys.
  - cbn [keys_to_delete]. intros Heq. now injection Heq as <-.
  - discriminate.
  - cbn [keys_to_delete listed_keys].
    destruct (keys_to_delete self _ rest) as [e|keys'] eqn:Hrest;
      [discriminate|].
    intros Heq. injection Heq as <-.
    rewrite List.filter_app, <- (IH keys' eq_refl). f_equal.
    apply List.filter_ext. intros key. unfold extraneous. f_equal. f_equal.
    apply bool_decide_ext. set_solver.
Qed.

(** The outcome of a sync, read as uploads and deletions. *)
Lemma sync_local_to_bucket_spec (c : client) (self : S3Manager)
    (local_dir : string) (rglob : list entry)
    (delete_extraneous_remote overwrite_existing : bool)
    (calls : list call) (err : option error) :
  sync_local_to_bucket c self local_dir true rglob delete_extraneous_remote
    overwrite_existing = (calls, err) ->
  uploaded calls `prefix_of` to_upload c self overwrite_existing rglob
  /\ deleted calls `prefix_of` to_delete c self delete_extraneous_remote rglob
  /\ (err = None ->
      uploaded calls = to_upload c self overwrite_existing rglob
      /\ deleted calls = to_delete c self delete_extraneous_remote rglob).
Proof.
  unfold sync_local_to_bucket. cbn [negb].
  destruct (upload_all c self overwrite_existing rglob ∅)
    as [calls1 [e|local_files]] eqn:Hall;
    destruct (upload_all_spec _ _ _ _ _ _ _ Hall) as (Hdel & Hpre & Hok).
  - intros Heq. injection Heq as <- <-.
    split; [exact Hpre|]. split; [|discriminate].
    rewrite Hdel. apply prefix_nil.
  - destruct (Hok _ eq_refl) as [Hup ->].
    unfold to_delete. destruct delete_extraneous_remote.
    + destruct (keys_to_delete self _ _) as [e|keys] eqn:Hkeys.
      * intros Heq. injection Heq as <- <-.
        rewrite uploaded_app, deleted_app, Hdel, Hup, app_nil_r.
        split; [reflexivity|]. split; [apply prefix_nil|discriminate].
      * apply keys_to_delete_spec in Hkeys as ->.
        destruct (delete_all c self _) as [calls2 r2] eqn:Hd.
        destruct (delete_all_spec _ _ _ _ _ Hd) as (Hup2 & Hpre2 & Hok2).
        intros Heq. injection Heq as <- <-.
        rewrite uploaded_app, deleted_app, Hdel, Hup.
        change (uploaded (paginate (bucket_name self) (S3.prefix self) :: calls2))
          with (uploaded calls2).
        change (deleted (paginate (bucket_name self) (S3.prefix self) :: calls2))
          with (deleted calls2).
        rewrite Hup2, app_nil_r. cbn [app].
        split; [reflexivity|]. split; [exact Hpre2|].
        intros ->. now rewrite (Hok2 eq_refl).
    + intros Heq. injection Heq as <- <-.
      rewrite Hup, Hdel. auto.
Qed.

Lemma concat_chunks_take {A} (size : nat) (l : list A) (count : nat) :
  concat ((fun k => take size (drop (k * size) l)) <$> seq 0 count)
  = take (count * size) l.
Proof.
  induction count as [|count IH]; [reflexivity|].
  rewrite seq_S, fmap_app, concat_app, IH. cbn [fmap list_fmap concat plus].
  rewrite app_nil_r, take_take_drop. f_equal. lia.
Qed.

Lemma chunks_concat (keys : list string) : concat (chunks keys) = keys.
Proof.
  unfold chunks. rewrite concat_chunks_take. apply take_ge.
  pose proof (Nat.div_mod_eq (length keys + 999) 1000) as Hd.
  pose proof (Nat.mod_upper_bound (length keys + 999) 1000 ltac:(lia)) as Hm.
  lia.
Qed.

Lemma chunks_sizes (keys chunk : list string) :
  chunk ∈ chunks keys -> (1 <= length chunk <= 1000)%nat.
Proof.
  unfold chunks. intros Hin. apply list_elem_of_fmap in Hin as (k & -> & Hk).
  apply elem_of_seq in Hk.
  pose proof (Nat.div_mod_eq (length keys + 999) 1000) as Hd.
  pose proof (Nat.mod_upper_bound (length keys + 999) 1000 ltac:(lia)) as Hm.
  rewrite length_take, length_drop. lia.
Qed.

(** X20. The keys to delete go out in calls of at most a thousand keys,
    none of them empty, and together the calls hold every key once, in
    order: for any number of keys (none, a thousand, a thousand and one)
    nothing is dropped and nothing is sent twice. *)
Theorem chunks_partition (keys : list string) :
  concat (chunks keys) = keys
  /\ Forall (fun chunk => (1 <= length chunk <= 1000)%nat) (chunks keys).
Proof.
  split; [apply chunks_concat|].
  apply Forall_forall. intros chunk. apply chunks_sizes.
Qed.

(** X21. [sync_local_to_bucket] raises [NotADirectoryError] without a
    call when the path is no directory. Otherwise it uploads the regular
    files the listing yields, in that order and each to the prefix
    followed by its relative path; directories are never uploaded, and
    when existing objects are to be kept a file is uploaded only if
    [head_object] answers 404 for its key. A run that raises has made the
    uploads up to the failing call; a run that returns has made them
    all. *)
Theorem sync_local_to_bucket_uploads (c : client) (self : S3Manager)
    (local_dir : string) (rglob : list entry)
    (delete_extraneous_remote overwrite_existing : bool) :
  sync_local_to_bucket c self local_dir false rglob delete_extraneous_remote
    overwrite_existing = ([], Some (NotADirectoryError local_dir))
  /\ forall calls err,
       sync_local_to_bucket c self local_dir true rglob
         delete_extraneous_remote overwrite_existing = (calls, err) ->
       uploaded calls `prefix_of` to_upload c self overwrite_existing rglob
       /\ (err = None ->
           uploaded calls = to_upload c self overwrite_existing rglob).
Proof.
  split; [reflexivity|].
  intros calls err Hs.
  destruct (sync_local_to_bucket_spec _ _ _ _ _ _ _ _ Hs) as (Hup & _ & Hok).
  split; [exact Hup|]. intros Herr. now destruct (Hok Herr).
Qed.

Lemma extraneous_not_local (self : S3Manager) (rglob : list entry)
    (path : entry) :
  path ∈ files rglob ->
  extraneous self rglob (S3.prefix self +:+ e_rel path) = false.
Proof.
  intros Hin. unfold extraneous.
  rewrite (proj1 (rel_key_halves self)).
  rewrite bool_decide_eq_true_2; [apply andb_false_r|].
  apply list_elem_of_fmap. eauto.
Qed.

(** X22. [sync_local_to_bucket] deletes nothing unless asked to. When
    asked, it deletes the listed keys that are no directory markers and
    whose path under the prefix is not the relative path of a local
    file, in calls of at most a thousand keys and in listing order; a
    run that returns has deleted them all, a run that raises a part of
    them. It never deletes a directory marker, and never the key it
    uploads a local file to. *)
Theorem sync_local_to_bucket_deletes (c : client) (self : S3Manager)
    (local_dir : string) (rglob : list entry)
    (delete_extraneous_remote overwrite_existing : bool)
    (calls : list call) (err : option error) :
  sync_local_to_bucket c self local_dir true rglob delete_extraneous_remote
    overwrite_existing = (calls, err) ->
  deleted calls `prefix_of` to_delete c self delete_extraneous_remote rglob
  /\ (err = None ->
      deleted calls = to_delete c self delete_extraneous_remote rglob)
  /\ (forall chunk key, chunk ∈ deleted calls -> key ∈ chunk ->
        delete_extraneous_remote = true
        /\ endswith key "/" = false
        /\ forall path, path ∈ files rglob ->
             key <> S3.prefix self +:+ e_rel path).
Proof.
  intros Hs.
  destruct (sync_local_to_bucket_spec _ _ _ _ _ _ _ _ Hs) as (_ & Hpre & Hok).
  split; [exact Hpre|]. split; [intros Herr; now destruct (Hok Herr)|].
  intros chunk key Hchunk Hkey.
  destruct Hpre as [more Hmore]. unfold to_delete in Hmore.
  destruct delete_extraneous_remote.
  - split; [reflexivity|].
    set (E := List.filter _ _) in Hmore.
    assert (HE : key ∈ E).
    { rewrite <- (chunks_concat E), Hmore, concat_app.
      apply elem_of_app. left. apply list_elem_of_In, in_concat.
      exists chunk. split; now apply list_elem_of_In. }
    apply list_elem_of_In, filter_In in HE as [_ Hex].
    split.
    + unfold extraneous in Hex. apply andb_true_iff in Hex as [Hm _].
      now apply negb_true_iff in Hm.
    + intros path Hpath ->.
      rewrite (extraneous_not_local _ _ _ Hpath) in Hex. discriminate.
  - symmetry in Hmore. apply app_eq_nil in Hmore as [Hnil _].
    rewrite Hnil in Hchunk. now apply elem_of_nil in Hchunk.
Qed.


(* --------------------------------------------------------------------- *)
(** *** The properties at work on a concrete bucket                       *)
(* --------------------------------------------------------------------- *)


Lemma sync_local_to_bucket_uploads_witness :
  uploaded (sync_local_to_bucket bucket photos "/media/pi/SDCARD/s3_folder"
              true card_files true false).1
  = to_upload bucket photos false card_files.
Proof.
  apply (proj2 (sync_local_to_bucket_uploads bucket photos
                  "/media/pi/SDCARD/s3_folder" card_files true false)
           _ None).
  - vm_compute. reflexivity.
  - reflexivity.
Defined.

Lemma sync_local_to_bucket_deletes_witness :
  deleted (sync_local_to_bucket bucket photos "/media/pi/SDCARD/s3_folder"
             true card_files true false).1
  `prefix_of` to_delete bucket photos true card_files
  /\ deleted (sync_local_to_bucket bucket photos "/media/pi/SDCARD/s3_folder"
                true card_files true false).1
     = [["photos/old.jpg"]].
Proof.
  destruct (sync_local_to_bucket_deletes bucket photos
              "/media/pi/SDCARD/s3_folder" card_files true false
              (sync_local_to_bucket bucket photos "/media/pi/SDCARD/s3_folder"
                 true card_files true false).1 None)
    as (Hpre & Hall & _).
  - vm_compute. reflexivity.
  - split; [exact Hpre|]. rewrite (Hall eq_refl). vm_compute. reflexivity.
Defined.

End S3Facts.
